(** * Binance Futures Order Bot: command-builder front-end and order engine

    The development has two parts.

    - [Frontend] is a shallow embedding of [js/script.js]: the page state
      that the script reads and writes, the handlers [showOrderForm],
      [generateCommand], [copyCommand], [displayLog] and the document-level
      [copy] listener, written as state transformers, and the user actions
      that trigger them.

    - [Engine] is the order validation and execution engine.  Its Python
      sources ([bot.py], [src/market_orders.py], [src/advanced/twap.py], ...)
      are not part of the tree, so its definitions follow the design
      document and are marked as such. *)

From Stdlib Require Import ZArith NArith QArith Qround Lia Lqa Ascii String.
From stdpp Require Import base strings gmap list.

Module Frontend.

Local Open Scope string_scope.
Local Open Scope N_scope.
Local Open Scope list_scope.

(** ** JavaScript strings

    A JavaScript string is a sequence of UTF-16 code units.  Every literal
    of the script is plain ASCII and is injected with [lit]. *)

Definition jsstring : Type := list N.

Definition lit (s : string) : jsstring :=
  (fun a => N_of_ascii a) <$> list_ascii_of_string s.

(** The result of [document.getElementById(id)?.value]: [None] stands for
    [undefined] (no such element), [Some v] for the element's value. *)
Definition jsvalue : Type := option jsstring.

(** [!v]: [undefined] and the empty string are the falsy values here. *)
Definition falsy (v : jsvalue) : bool :=
  match v with
  | None => true
  | Some [] => true
  | Some (_ :: _) => false
  end.

(** [`${v}`] inside a template literal. *)
Definition tpl (v : jsvalue) : jsstring :=
  match v with
  | None => lit "undefined"
  | Some s => s
  end.

(** [commandText && ...]: a string is truthy when it is not empty. *)
Definition truthy (s : jsstring) : bool :=
  match s with
  | [] => false
  | _ :: _ => true
  end.

Definition jseq (a b : jsstring) : bool := bool_decide (a = b).

(** ** The page *)

(** An element that the script touches through [textContent] and
    [classList] only. *)
Record element : Type := Element {
  textContent : jsstring;
  classList : gset string
}.

Definition setText (s : jsstring) (e : element) : element :=
  {| textContent := s; classList := classList e |}.

Definition classAdd (c : string) (e : element) : element :=
  {| textContent := textContent e; classList := {[c]} ∪ classList e |}.

Definition classRemove (c : string) (e : element) : element :=
  {| textContent := textContent e; classList := classList e ∖ {[c]} |}.

(** Callbacks handed to [setTimeout]. *)
Inductive callback : Type :=
  | HideCopyMessage.

(** What [showOrderForm] puts into [orderFormsDiv.innerHTML]: the input
    fields of one order type (or none) and the command type wired to the
    "Generate Command" button (or no button). *)
Record markup : Type := Markup {
  formOf : option jsstring;
  buttonOf : option jsstring
}.

Record page : Type := Page {
  orderTypeSelect : jsstring;          (* orderTypeSelect.value *)
  orderFormsDiv : markup;              (* orderFormsDiv.innerHTML *)
  fields : gmap string jsstring;       (* id |-> .value of the injected inputs *)
  commandOutputDiv : element;
  generatedCommandPre : element;
  copyMessageP : element;
  logInputTextarea : jsstring;         (* logInputTextarea.value *)
  logOutputDiv : element;
  timers : list (N * callback);        (* pending setTimeout calls *)
  selection : jsstring;                (* the text currently selected *)
  clipboard : jsstring                 (* the system clipboard *)
}.

Definition withForm (m : markup) (f : gmap string jsstring) (p : page) : page :=
  {| orderTypeSelect := orderTypeSelect p; orderFormsDiv := m; fields := f;
     commandOutputDiv := commandOutputDiv p;
     generatedCommandPre := generatedCommandPre p;
     copyMessageP := copyMessageP p;
     logInputTextarea := logInputTextarea p; logOutputDiv := logOutputDiv p;
     timers := timers p; selection := selection p; clipboard := clipboard p |}.

Definition withCommandOutputDiv (e : element) (p : page) : page :=
  {| orderTypeSelect := orderTypeSelect p; orderFormsDiv := orderFormsDiv p;
     fields := fields p;
     commandOutputDiv := e;
     generatedCommandPre := generatedCommandPre p;
     copyMessageP := copyMessageP p;
     logInputTextarea := logInputTextarea p; logOutputDiv := logOutputDiv p;
     timers := timers p; selection := selection p; clipboard := clipboard p |}.

Definition withGeneratedCommandPre (e : element) (p : page) : page :=
  {| orderTypeSelect := orderTypeSelect p; orderFormsDiv := orderFormsDiv p;
     fields := fields p;
     commandOutputDiv := commandOutputDiv p;
     generatedCommandPre := e;
     copyMessageP := copyMessageP p;
     logInputTextarea := logInputTextarea p; logOutputDiv := logOutputDiv p;
     timers := timers p; selection := selection p; clipboard := clipboard p |}.

Definition withCopyMessageP (e : element) (p : page) : page :=
  {| orderTypeSelect := orderTypeSelect p; orderFormsDiv := orderFormsDiv p;
     fields := fields p;
     commandOutputDiv := commandOutputDiv p;
     generatedCommandPre := generatedCommandPre p;
     copyMessageP := e;
     logInputTextarea := logInputTextarea p; logOutputDiv := logOutputDiv p;
     timers := timers p; selection := selection p; clipboard := clipboard p |}.

Definition withLogOutputDiv (e : element) (p : page) : page :=
  {| orderTypeSelect := orderTypeSelect p; orderFormsDiv := orderFormsDiv p;
     fields := fields p;
     commandOutputDiv := commandOutputDiv p;
     generatedCommandPre := generatedCommandPre p;
     copyMessageP := copyMessageP p;
     logInputTextarea := logInputTextarea p; logOutputDiv := e;
     timers := timers p; selection := selection p; clipboard := clipboard p |}.

Definition withTimers (t : list (N * callback)) (p : page) : page :=
  {| orderTypeSelect := orderTypeSelect p; orderFormsDiv := orderFormsDiv p;
     fields := fields p;
     commandOutputDiv := commandOutputDiv p;
     generatedCommandPre := generatedCommandPre p;
     copyMessageP := copyMessageP p;
     logInputTextarea := logInputTextarea p; logOutputDiv := logOutputDiv p;
     timers := t; selection := selection p; clipboard := clipboard p |}.

Definition withClipboard (c : jsstring) (p : page) : page :=
  {| orderTypeSelect := orderTypeSelect p; orderFormsDiv := orderFormsDiv p;
     fields := fields p;
     commandOutputDiv := commandOutputDiv p;
     generatedCommandPre := generatedCommandPre p;
     copyMessageP := copyMessageP p;
     logInputTextarea := logInputTextarea p; logOutputDiv := logOutputDiv p;
     timers := timers p; selection := selection p; clipboard := c |}.

(** ** 2. [showOrderForm] *)

(** The ids of the inputs that the form of each order type contains, in
    document order. *)
Definition formInputs (selectedType : jsstring) : list string :=
  if jseq selectedType (lit "market-order") then
    ["symbol"; "side"; "quantity"]
  else if jseq selectedType (lit "limit-order") then
    ["symbol"; "side"; "quantity"; "price"]
  else if jseq selectedType (lit "oco-order") then
    ["symbol"; "side"; "quantity"; "stop-price"; "take-profit-price"]
  else if jseq selectedType (lit "stop-limit-order") then
    ["symbol"; "side"; "quantity"; "stop-price"; "limit-price"]
  else if jseq selectedType (lit "twap-order") then
    ["symbol"; "side"; "total-quantity"; "num-intervals"; "interval-seconds"]
  else if jseq selectedType (lit "grid-order") then
    ["symbol"; "min-price"; "max-price"; "num-buy-orders"; "num-sell-orders";
     "quantity-per-order"]
  else [].

(** The order types for which the switch of [showOrderForm] produces a
    "Generate Command" button. *)
Definition supportedTypes : list jsstring :=
  [lit "check-balance"; lit "market-order"; lit "limit-order";
   lit "oco-order"; lit "stop-limit-order"; lit "twap-order";
   lit "grid-order"].

(** Freshly injected inputs are empty (the first option of each [select]
    has the value [""]). *)
Definition freshFields (ids : list string) : gmap string jsstring :=
  list_to_map ((fun id => (id, [])) <$> ids).

Definition showOrderForm (p : page) : page :=
  let selectedType := orderTypeSelect p in
  let p := withForm (Markup None None) ∅ p in
  let p := withCommandOutputDiv (classAdd "hidden" (commandOutputDiv p)) p in
  let p := withCopyMessageP (classAdd "hidden" (copyMessageP p)) p in
  if bool_decide (selectedType ∈ supportedTypes) then
    match formInputs selectedType with
    | [] => withForm (Markup None (Some selectedType)) ∅ p
    | ids => withForm (Markup (Some selectedType) (Some selectedType))
                      (freshFields ids) p
    end
  else p.

(** ** 4. [generateCommand] *)

Definition requiredMessage : jsstring := lit "Please fill all required fields.".

Definition generateCommand (commandType : jsstring) (p : page) : page :=
  let command := lit "python bot.py " ++ commandType in
  let getInputValue := fun id : string => fields p !! id in
  let '(isValid, command) :=
    if jseq commandType (lit "market-order") then
      let marketSymbol := getInputValue "symbol" in
      let marketSide := getInputValue "side" in
      let marketQuantity := getInputValue "quantity" in
      (negb (falsy marketSymbol || falsy marketSide || falsy marketQuantity),
       command ++ lit " --symbol " ++ tpl marketSymbol
               ++ lit " --side " ++ tpl marketSide
               ++ lit " --quantity " ++ tpl marketQuantity)
    else if jseq commandType (lit "limit-order") then
      let limitSymbol := getInputValue "symbol" in
      let limitSide := getInputValue "side" in
      let limitQuantity := getInputValue "quantity" in
      let limitPrice := getInputValue "price" in
      (negb (falsy limitSymbol || falsy limitSide || falsy limitQuantity
             || falsy limitPrice),
       command ++ lit " --symbol " ++ tpl limitSymbol
               ++ lit " --side " ++ tpl limitSide
               ++ lit " --quantity " ++ tpl limitQuantity
               ++ lit " --price " ++ tpl limitPrice)
    else if jseq commandType (lit "oco-order") then
      let ocoSymbol := getInputValue "symbol" in
      let ocoSide := getInputValue "side" in
      let ocoQuantity := getInputValue "quantity" in
      let stopPrice := getInputValue "stop-price" in
      let takeProfitPrice := getInputValue "take-profit-price" in
      (negb (falsy ocoSymbol || falsy ocoSide || falsy ocoQuantity
             || falsy stopPrice || falsy takeProfitPrice),
       command ++ lit " --symbol " ++ tpl ocoSymbol
               ++ lit " --side " ++ tpl ocoSide
               ++ lit " --quantity " ++ tpl ocoQuantity
               ++ lit " --stop-price " ++ tpl stopPrice
               ++ lit " --take-profit-price " ++ tpl takeProfitPrice)
    else if jseq commandType (lit "stop-limit-order") then
      let slSymbol := getInputValue "symbol" in
      let slSide := getInputValue "side" in
      let slQuantity := getInputValue "quantity" in
      let slStopPrice := getInputValue "stop-price" in
      let slLimitPrice := getInputValue "limit-price" in
      (negb (falsy slSymbol || falsy slSide || falsy slQuantity
             || falsy slStopPrice || falsy slLimitPrice),
       command ++ lit " --symbol " ++ tpl slSymbol
               ++ lit " --side " ++ tpl slSide
               ++ lit " --quantity " ++ tpl slQuantity
               ++ lit " --stop-price " ++ tpl slStopPrice
               ++ lit " --limit-price " ++ tpl slLimitPrice)
    else if jseq commandType (lit "twap-order") then
      let twapSymbol := getInputValue "symbol" in
      let twapSide := getInputValue "side" in
      let totalQuantity := getInputValue "total-quantity" in
      let numIntervals := getInputValue "num-intervals" in
      let intervalSeconds := getInputValue "interval-seconds" in
      (negb (falsy twapSymbol || falsy twapSide || falsy totalQuantity
             || falsy numIntervals || falsy intervalSeconds),
       command ++ lit " --symbol " ++ tpl twapSymbol
               ++ lit " --side " ++ tpl twapSide
               ++ lit " --total-quantity " ++ tpl totalQuantity
               ++ lit " --num-intervals " ++ tpl numIntervals
               ++ lit " --interval-seconds " ++ tpl intervalSeconds)
    else if jseq commandType (lit "grid-order") then
      let gridSymbol := getInputValue "symbol" in
      let minPrice := getInputValue "min-price" in
      let maxPrice := getInputValue "max-price" in
      let numBuyOrders := getInputValue "num-buy-orders" in
      let numSellOrders := getInputValue "num-sell-orders" in
      let quantityPerOrder := getInputValue "quantity-per-order" in
      (negb (falsy gridSymbol || falsy minPrice || falsy maxPrice
             || falsy numBuyOrders || falsy numSellOrders
             || falsy quantityPerOrder),
       command ++ lit " --symbol " ++ tpl gridSymbol
               ++ lit " --min-price " ++ tpl minPrice
               ++ lit " --max-price " ++ tpl maxPrice
               ++ lit " --num-buy-orders " ++ tpl numBuyOrders
               ++ lit " --num-sell-orders " ++ tpl numSellOrders
               ++ lit " --quantity-per-order " ++ tpl quantityPerOrder)
    else if jseq commandType (lit "check-balance") then
      (true, command)
    else
      (false, command) in
  if negb isValid then
    let p := withGeneratedCommandPre
               (setText requiredMessage (generatedCommandPre p)) p in
    withGeneratedCommandPre
      (classAdd "text-red-400" (generatedCommandPre p)) p
  else
    let p := withGeneratedCommandPre
               (setText command (generatedCommandPre p)) p in
    let p := withGeneratedCommandPre
               (classRemove "text-red-400" (generatedCommandPre p)) p in
    withCommandOutputDiv (classRemove "hidden" (commandOutputDiv p)) p.

(** ** 3. [generateCommandWrapper] *)

Definition generateCommandWrapper (commandType : jsstring) (p : page) : page :=
  generateCommand commandType p.

(** The handler that the generated button runs on a click: the button of
    the injected markup calls [generateCommandWrapper] with its order type. *)
Definition clickGenerate (p : page) : page :=
  match buttonOf (orderFormsDiv p) with
  | Some commandType => generateCommandWrapper commandType p
  | None => p
  end.

(** ** 8. The document-level [copy] listener *)

(** The part of a [ClipboardEvent] that the listener uses. *)
Record clipboardEvent : Type := ClipboardEvent {
  clipboardData : gmap string jsstring;   (* format |-> data *)
  defaultPrevented : bool
}.

Definition setData (format : string) (data : jsstring) (e : clipboardEvent)
  : clipboardEvent :=
  {| clipboardData := <[format := data]> (clipboardData e);
     defaultPrevented := defaultPrevented e |}.

Definition preventDefault (e : clipboardEvent) : clipboardEvent :=
  {| clipboardData := clipboardData e; defaultPrevented := true |}.

Definition copyListener (p : page) (e : clipboardEvent) : clipboardEvent :=
  let commandText := textContent (generatedCommandPre p) in
  if truthy commandText && negb (jseq commandText requiredMessage) then
    let e := setData "text/plain" commandText e in
    preventDefault e
  else e.

(** [document.execCommand('copy')] as the browser performs it: a [copy]
    event with empty data is fired at the document, the listener above
    runs, and then the clipboard receives the event's data when the
    default action was prevented, the selected text otherwise. *)
Definition execCommandCopy (p : page) : page :=
  let e := copyListener p {| clipboardData := ∅; defaultPrevented := false |} in
  if defaultPrevented e then
    match clipboardData e !! "text/plain" with
    | Some data => withClipboard data p
    | None => p
    end
  else if truthy (selection p) then withClipboard (selection p) p
  else p.

(** ** 5. [copyCommand] *)

Definition copyCommand (p : page) : page :=
  let commandText := textContent (generatedCommandPre p) in
  if truthy commandText && negb (jseq commandText requiredMessage) then
    let p := execCommandCopy p in
    let p := withCopyMessageP (classRemove "hidden" (copyMessageP p)) p in
    withTimers (timers p ++ [(2000, HideCopyMessage)]) p
  else p.

Definition runCallback (c : callback) (p : page) : page :=
  match c with
  | HideCopyMessage =>
      withCopyMessageP (classAdd "hidden" (copyMessageP p)) p
  end.

(** ** 6. [displayLog] *)

(** The code units that [String.prototype.trim] strips: the WhiteSpace and
    LineTerminator productions of ECMAScript. *)
Definition isWhiteSpace (c : N) : bool :=
  (c =? 0x9) || (c =? 0xA) || (c =? 0xB) || (c =? 0xC) || (c =? 0xD)
  || (c =? 0x20) || (c =? 0xA0) || (c =? 0x1680)
  || ((0x2000 <=? c) && (c <=? 0x200A))
  || (c =? 0x2028) || (c =? 0x2029) || (c =? 0x202F) || (c =? 0x205F)
  || (c =? 0x3000) || (c =? 0xFEFF).

Fixpoint trimStart (s : jsstring) : jsstring :=
  match s with
  | [] => []
  | c :: s' => if isWhiteSpace c then trimStart s' else s
  end.

Definition trimEnd (s : jsstring) : jsstring := rev (trimStart (rev s)).

Definition trim (s : jsstring) : jsstring := trimEnd (trimStart s).

Definition noLogMessage : jsstring :=
  lit "No log content to display. Please paste content from bot.log.".

Definition displayLog (p : page) : page :=
  let logContent := logInputTextarea p in
  if jseq (trim logContent) (lit "") then
    let p := withLogOutputDiv (setText noLogMessage (logOutputDiv p)) p in
    withLogOutputDiv (classAdd "text-red-400" (logOutputDiv p)) p
  else
    let p := withLogOutputDiv (setText logContent (logOutputDiv p)) p in
    let p := withLogOutputDiv (classRemove "text-red-400" (logOutputDiv p)) p in
    withLogOutputDiv (classRemove "hidden" (logOutputDiv p)) p.

(** ** The command line that the script is meant to print *)

(** One [ --flag value] pair; the flag of a field is its element id. *)
Definition flagPair (p : page) (id : string) : jsstring :=
  lit " --" ++ lit id ++ lit " " ++ tpl (fields p !! id).

Definition commandLine (commandType : jsstring) (p : page) : jsstring :=
  lit "python bot.py " ++ commandType
    ++ concat (flagPair p <$> formInputs commandType).

(** A field counts as filled when its element exists and its value is not
    the empty string. *)
Definition filled (p : page) (id : string) : Prop :=
  falsy (fields p !! id) = false.

Definition copyable (s : jsstring) : Prop :=
  s <> [] /\ s <> requiredMessage.

(** A page as [index.html] delivers it, before any script has run. *)
Definition initialPage : page :=
  {| orderTypeSelect := lit "";
     orderFormsDiv := Markup None None;
     fields := ∅;
     commandOutputDiv := Element [] {["hidden"; "mt-4"]};
     generatedCommandPre := Element [] {["code-block"; "flex-grow"]};
     copyMessageP :=
       Element (lit "Copied to clipboard!")
               {["text-green-400"; "text-sm"; "mt-1"; "hidden"]};
     logInputTextarea := [];
     logOutputDiv := Element [] {["code-block"; "mt-4"; "hidden"]};
     timers := [];
     selection := [];
     clipboard := [] |}.

Definition withFields (f : gmap string jsstring) (p : page) : page :=
  withForm (orderFormsDiv p) f p.

Definition withLogInput (s : jsstring) (p : page) : page :=
  {| orderTypeSelect := orderTypeSelect p; orderFormsDiv := orderFormsDiv p;
     fields := fields p;
     commandOutputDiv := commandOutputDiv p;
     generatedCommandPre := generatedCommandPre p;
     copyMessageP := copyMessageP p;
     logInputTextarea := s; logOutputDiv := logOutputDiv p;
     timers := timers p; selection := selection p; clipboard := clipboard p |}.

(** The two ways in which [generateCommand] ends. *)
Definition showCommand (isValid : bool) (command : jsstring) (p : page) : page :=
  if isValid then
    withCommandOutputDiv (classRemove "hidden" (commandOutputDiv p))
      (withGeneratedCommandPre
         (classRemove "text-red-400" (setText command (generatedCommandPre p)))
         p)
  else
    withGeneratedCommandPre
      (classAdd "text-red-400" (setText requiredMessage (generatedCommandPre p)))
      p.

Definition allFilled (p : page) (ids : list string) : bool :=
  forallb (fun id => negb (falsy (fields p !! id))) ids.

(** Empty or made of whitespace only. *)
Definition blank (s : jsstring) : Prop :=
  Forall (fun c => isWhiteSpace c = true) s.

(** ** Sample pages *)

Definition withOrderType (t : jsstring) (p : page) : page :=
  {| orderTypeSelect := t; orderFormsDiv := orderFormsDiv p;
     fields := fields p;
     commandOutputDiv := commandOutputDiv p;
     generatedCommandPre := generatedCommandPre p;
     copyMessageP := copyMessageP p;
     logInputTextarea := logInputTextarea p; logOutputDiv := logOutputDiv p;
     timers := timers p; selection := selection p; clipboard := clipboard p |}.

(** "Market Order" has just been selected: its form is shown, nothing is
    typed in yet. *)
Definition emptyMarketForm : page :=
  showOrderForm (withOrderType (lit "market-order") initialPage).

(** ** What the controls report as their [value]

    [getInputValue] and [displayLog] read the [value] of a control, which
    is not always the text that the user put in.  The markup injected by
    [showOrderForm] has three kinds of control: a text input ([symbol]),
    a [select] with the options "", "BUY" and "SELL" ([side]) and number
    inputs (every other id); [logInput] is a textarea. *)

Inductive control : Type :=
  | TextInput
  | NumberInput
  | Select (options : list jsstring).

Definition controlOf (id : string) : control :=
  if String.eqb id "symbol" then TextInput
  else if String.eqb id "side" then Select [lit ""; lit "BUY"; lit "SELL"]
  else NumberInput.

(** A text input strips line breaks from its value. *)
Definition stripNewlines (s : jsstring) : jsstring :=
  List.filter (fun c => negb ((c =? 0xA) || (c =? 0xD))) s.

Definition isDigit (c : N) : bool := (0x30 <=? c) && (c <=? 0x39).

(** The longest run of ASCII digits at the head of [s]: the number they
    spell after [value], how many there are after [count], and the rest of
    the string. *)
Fixpoint readDigits (s : jsstring) (value count : N) : N * N * jsstring :=
  match s with
  | c :: rest =>
      if isDigit c then readDigits rest (10 * value + (c - 0x30)) (count + 1)
      else (value, count, s)
  | [] => (value, count, [])
  end.

(** The exponent part that may end a number: nothing, or "e" or "E", an
    optional sign and at least one digit, up to the end of the string. *)
Definition readExponent (s : jsstring) : option Z :=
  match s with
  | [] => Some 0%Z
  | c :: rest =>
      if (c =? 0x65) || (c =? 0x45) then
        let '(negative, rest) :=
          match rest with
          | d :: rest' =>
              if d =? 0x2D then (true, rest')
              else if d =? 0x2B then (false, rest')
              else (false, rest)
          | [] => (false, [])
          end in
        match readDigits rest 0 0 with
        | (x, count, []) =>
            if count =? 0 then None
            else Some (if negative then (- Z.of_N x)%Z else Z.of_N x)
        | _ => None
        end
      else None
  end.

(** A valid floating-point number of HTML: an optional "-", then digits,
    or digits (possibly none) followed by "." and at least one digit, then
    an optional exponent.  The result [(m, e)] stands for the magnitude
    [m * 10^e]. *)
Definition parseFloatingPoint (s : jsstring) : option (Z * Z) :=
  let s := match s with
           | c :: rest => if c =? 0x2D then rest else s
           | [] => []
           end in
  let '(i, icount, s) := readDigits s 0 0 in
  match s with
  | c :: rest =>
      if c =? 0x2E then
        let '(f, fcount, s) := readDigits rest 0 0 in
        if fcount =? 0 then None
        else
          match readExponent s with
          | Some x => Some (Z.of_N (i * 10 ^ fcount + f), (x - Z.of_N fcount)%Z)
          | None => None
          end
      else if icount =? 0 then None
      else
        match readExponent s with
        | Some x => Some (Z.of_N i, x)
        | None => None
        end
  | [] => if icount =? 0 then None else Some (Z.of_N i, 0%Z)
  end.

(** The magnitude [m * 10^e] rounds to a finite double: it lies below
    the midpoint between the largest double and [2^1024]. *)
Definition finiteDouble (m e : Z) : bool :=
  if (0 <=? e)%Z then (m * 10 ^ e <? 2 ^ 1024 - 2 ^ 970)%Z
  else (m <? (2 ^ 1024 - 2 ^ 970) * 10 ^ (- e))%Z.

(** A number input keeps a text that is a valid floating-point number
    with a finite value and reports the empty string for any other. *)
Definition validNumber (s : jsstring) : bool :=
  match parseFloatingPoint s with
  | Some (m, e) => finiteDouble m e
  | None => false
  end.

(** The [value] that the control [id] reports once its content has been
    set to [text].  A [select] takes the option whose value is [text] and
    has no option selected, hence the value "", when there is none. *)
Definition controlValue (id : string) (text : jsstring) : jsstring :=
  match controlOf id with
  | TextInput => stripNewlines text
  | NumberInput => if validNumber text then text else []
  | Select options => if existsb (jseq text) options then text else []
  end.

(** The [value] of a textarea is its content with the line breaks
    normalised: a CR becomes LF, and an LF that follows a CR is dropped. *)
Fixpoint normalizeFrom (afterCR : bool) (s : jsstring) : jsstring :=
  match s with
  | [] => []
  | c :: rest =>
      if c =? 0xD then 0xA :: normalizeFrom true rest
      else if (c =? 0xA) && afterCR then normalizeFrom false rest
      else c :: normalizeFrom false rest
  end.

Definition normalizeNewlines (s : jsstring) : jsstring := normalizeFrom false s.

(** ** 7. Event listeners *)

(** What the user can do on the page, and the listener that each action
    triggers: choosing an order type fires [change] on the dropdown, the
    three buttons fire [click]; putting [text] into a field of the form
    (in place of what it held) or pasting it into the log textarea (empty,
    or over all of its content) only changes the value of that control,
    to what the control makes of [text]. *)
Inductive action : Type :=
  | SelectOrderType (t : jsstring)
  | TypeInto (id : string) (text : jsstring)
  | ClickGenerate
  | ClickCopy
  | PasteLog (text : jsstring)
  | ClickDisplayLog.

Definition step (a : action) (p : page) : page :=
  match a with
  | SelectOrderType t => showOrderForm (withOrderType t p)
  | TypeInto id text =>
      match fields p !! id with
      | Some _ => withFields (<[id := controlValue id text]> (fields p)) p
      | None => p
      end
  | ClickGenerate => clickGenerate p
  | ClickCopy => copyCommand p
  | PasteLog text => withLogInput (normalizeNewlines text) p
  | ClickDisplayLog => displayLog p
  end.

(** The page once [DOMContentLoaded] has run [showOrderForm]. *)
Definition loadedPage : page := showOrderForm initialPage.

Inductive reachable : page -> Prop :=
  | reachable_loaded : reachable loadedPage
  | reachable_step (a : action) (p : page) :
      reachable p -> reachable (step a p).

(** A market-order form filled with BTCUSDT / BUY / 0.001. *)
Definition marketPage : page :=
  withFields
    (<["symbol" := lit "BTCUSDT"]>
       (<["side" := lit "BUY"]> (<["quantity" := lit "0.001"]> ∅)))
    initialPage.

(** A grid form whose values no exchange would accept: the maximum lies
    below the minimum and the quantity is negative. *)
Definition nonsensePage : page :=
  withFields
    (<["symbol" := lit "???"]>
       (<["min-price" := lit "9"]>
          (<["max-price" := lit "1"]>
             (<["num-buy-orders" := lit "-2"]>
                (<["num-sell-orders" := lit "0"]>
                   (<["quantity-per-order" := lit "-5"]> ∅))))))
    initialPage.

(** [p'] differs from [p] at most in the generated-command element and in
    the classes of the command output area: the order form and its fields,
    the copy message, the log viewer, the pending timers, the selection
    and the clipboard are the same, and the page state has no other
    component through which a request could leave the script. *)
Definition onlyCommandDisplayChanged (p p' : page) : Prop :=
  p' = withCommandOutputDiv (commandOutputDiv p')
         (withGeneratedCommandPre (generatedCommandPre p') p)
  /\ textContent (commandOutputDiv p') = textContent (commandOutputDiv p).

(** ** Further notions for the handlers *)

(** Whether [generateCommand] ends on the command rather than on the
    message: the command type has a case of its own in the switch and every
    input of that case has a value. *)
Definition accepts (commandType : jsstring) (p : page) : bool :=
  bool_decide (commandType ∈ supportedTypes)
  && allFilled p (formInputs commandType).

(** Typing [vals id] into every field [id] of [ids], one after the other. *)
Definition fillForm (vals : string -> jsstring) (ids : list string) (p : page)
  : page :=
  foldl (fun q id => step (TypeInto id (vals id)) q) p ids.

(** The oldest pending [setTimeout] fires: its callback runs and the timer
    is gone.  All timers of the script have the same delay, so they fire
    in the order in which they were set. *)
Definition fireTimer (p : page) : page :=
  match timers p with
  | [] => p
  | (_, c) :: rest => runCallback c (withTimers rest p)
  end.

(** The injected form is the one of the selected order type: its button
    calls [generateCommand] with that type and its inputs are those of that
    type; without a supported type there is neither button nor input. *)
Definition formMatchesSelection (p : page) : Prop :=
  if bool_decide (orderTypeSelect p ∈ supportedTypes) then
    buttonOf (orderFormsDiv p) = Some (orderTypeSelect p)
    /\ forall id, is_Some (fields p !! id) <-> id ∈ formInputs (orderTypeSelect p)
  else
    buttonOf (orderFormsDiv p) = None /\ fields p = ∅.

(** ** Properties of the front-end *)

(** *** Evaluating the switch *)

Lemma jseq_refl (a : jsstring) : jseq a a = true.
Proof. unfold jseq. apply bool_decide_eq_true_2. reflexivity. Qed.

Lemma jseq_neq (a b : jsstring) : a <> b -> jseq a b = false.
Proof. intros H. unfold jseq. apply bool_decide_eq_false_2. exact H. Qed.

Lemma jseq_true (a b : jsstring) : jseq a b = true <-> a = b.
Proof. unfold jseq. apply bool_decide_eq_true. Qed.

Ltac switch_eval :=
  repeat first
    [ rewrite jseq_refl
    | rewrite jseq_neq by (vm_compute; discriminate) ].

Lemma allFilled_true (p : page) (ids : list string) :
  allFilled p ids = true <-> Forall (filled p) ids.
Proof.
  unfold allFilled, filled. induction ids as [|id ids IH]; simpl.
  - split; [constructor | reflexivity].
  - rewrite andb_true_iff, negb_true_iff, IH. split.
    + intros [H1 H2]. constructor; assumption.
    + intros H. inversion H; subst. split; assumption.
Qed.

Lemma allFilled_false (p : page) (ids : list string) :
  allFilled p ids = false <-> Exists (fun id => ~ filled p id) ids.
Proof.
  unfold allFilled, filled. induction ids as [|id ids IH]; simpl.
  - split; [discriminate | intros H; inversion H].
  - rewrite andb_false_iff, negb_false_iff, IH. split.
    + intros [H | H]; [left; congruence | right; exact H].
    + intros H. inversion H; subst.
      * left. destruct (falsy (fields p !! id)); congruence.
      * right. assumption.
Qed.

Ltac page_simpl :=
  cbn [showCommand negb orb andb
       withGeneratedCommandPre withCommandOutputDiv withCopyMessageP
       withLogOutputDiv withTimers withClipboard withForm
       orderTypeSelect orderFormsDiv fields commandOutputDiv
       generatedCommandPre copyMessageP logInputTextarea logOutputDiv
       timers selection clipboard
       setText classAdd classRemove textContent classList].

(** On a supported order type, the switch computes exactly the command
    line of the table [formInputs], and accepts it exactly when every
    field of that table is filled. *)
Lemma generateCommand_table (commandType : jsstring) (p : page) :
  commandType ∈ supportedTypes ->
  generateCommand commandType p
  = showCommand (allFilled p (formInputs commandType))
                (commandLine commandType p) p.
Proof.
  intros Hin. unfold supportedTypes in Hin.
  repeat (apply elem_of_cons in Hin as [-> | Hin]);
    [ .. | apply elem_of_nil in Hin; contradiction ];
    unfold generateCommand, commandLine, formInputs, allFilled, flagPair;
    switch_eval; cbn [forallb fmap list_fmap concat];
    repeat match goal with
           | |- context [fields p !! ?id] => generalize (fields p !! id); intro
           end;
    repeat match goal with
           | |- context [falsy ?v] => destruct (falsy v)
           end;
    page_simpl; try reflexivity;
    rewrite <- ?app_assoc, ?app_nil_r; repeat f_equal.
Qed.

(** Any other command type takes the [default] branch. *)
Lemma generateCommand_default (commandType : jsstring) (p : page) :
  commandType ∉ supportedTypes ->
  generateCommand commandType p
  = showCommand false (lit "python bot.py " ++ commandType) p.
Proof.
  intros Hnot. unfold supportedTypes in Hnot.
  repeat (apply not_elem_of_cons in Hnot as [? Hnot]).
  unfold generateCommand.
  rewrite !jseq_neq by assumption. reflexivity.
Qed.

(** The button that [showOrderForm] injects always carries a supported
    order type, so [generateCommand] only ever runs on one of those. *)
Lemma showOrderForm_button (p : page) (commandType : jsstring) :
  buttonOf (orderFormsDiv (showOrderForm p)) = Some commandType ->
  commandType ∈ supportedTypes /\ commandType = orderTypeSelect p.
Proof.
  unfold showOrderForm. case_bool_decide as Hin.
  - destruct (formInputs (orderTypeSelect p)); cbn; intros [= <-]; auto.
  - cbn. discriminate.
Qed.

(** The form that [showOrderForm] injects holds exactly the inputs that
    [generateCommand] reads for that type, all of them empty. *)
Lemma showOrderForm_fields (p : page) (id : string) :
  orderTypeSelect p ∈ supportedTypes ->
  fields (showOrderForm p) !! id
  = if bool_decide (id ∈ formInputs (orderTypeSelect p)) then Some [] else None.
Proof.
  intros Hin. unfold showOrderForm. rewrite bool_decide_eq_true_2 by exact Hin.
  assert (Hfresh : forall ids,
    freshFields ids !! id = if bool_decide (id ∈ ids) then Some [] else None).
  { induction ids as [|i ids IH].
    - unfold freshFields. cbn. rewrite lookup_empty. reflexivity.
    - change (freshFields (i :: ids))
        with (<[i := ([] : jsstring)]> (freshFields ids)).
      destruct (decide (i = id)) as [-> | Hne].
      + rewrite lookup_insert_eq, bool_decide_eq_true_2; [reflexivity | left].
      + rewrite lookup_insert_ne by exact Hne. etrans; [apply IH |].
        apply (f_equal (fun b : bool => if b then Some [] else None)).
        apply bool_decide_ext. rewrite elem_of_cons.
        split; [auto | intros [E | H']; [congruence | exact H']]. }
  destruct (formInputs (orderTypeSelect p)) as [|i ids] eqn:E.
  - cbn. rewrite lookup_empty. reflexivity.
  - cbn [fields withForm]. apply Hfresh.
Qed.

Lemma generateCommand_markup (commandType : jsstring) (p : page) :
  orderFormsDiv (generateCommand commandType p) = orderFormsDiv p.
Proof.
  destruct (decide (commandType ∈ supportedTypes)) as [Hin | Hnot].
  - rewrite generateCommand_table by exact Hin.
    unfold showCommand. destruct (allFilled _ _); reflexivity.
  - rewrite generateCommand_default by exact Hnot. reflexivity.
Qed.

Lemma step_markup (a : action) (p : page) :
  (exists t, a = SelectOrderType t)
  \/ orderFormsDiv (step a p) = orderFormsDiv p.
Proof.
  destruct a as [t | id v | | | s |]; cbn [step].
  - left. exists t. reflexivity.
  - right. destruct (fields p !! id); reflexivity.
  - right. unfold clickGenerate, generateCommandWrapper.
    destruct (buttonOf (orderFormsDiv p)); [| reflexivity].
    apply generateCommand_markup.
  - right. unfold copyCommand, execCommandCopy, copyListener.
    destruct (truthy _ && negb _); [| reflexivity].
    cbn. rewrite lookup_insert_eq. reflexivity.
  - right. reflexivity.
  - right. unfold displayLog. destruct (jseq _ _); reflexivity.
Qed.

(** On every page that the user can reach, the "Generate Command" button,
    when there is one, calls [generateCommand] with a supported order
    type. *)
Lemma reachable_button (p : page) (commandType : jsstring) :
  reachable p ->
  buttonOf (orderFormsDiv p) = Some commandType ->
  commandType ∈ supportedTypes.
Proof.
  intros Hreach. revert commandType.
  induction Hreach as [| a p Hreach IH]; intros commandType Hbutton.
  - apply showOrderForm_button in Hbutton. apply Hbutton.
  - destruct (step_markup a p) as [[t ->] | Hsame].
    + cbn [step] in Hbutton. apply showOrderForm_button in Hbutton.
      apply Hbutton.
    + rewrite Hsame in Hbutton. apply IH. exact Hbutton.
Qed.

Lemma commandLine_prefix (commandType : jsstring) (p : page) :
  exists args, commandLine commandType p
               = lit "python bot.py " ++ commandType ++ args.
Proof. eexists. reflexivity. Qed.

Lemma requiredMessage_not_command (rest : jsstring) :
  requiredMessage <> lit "python bot.py " ++ rest.
Proof. vm_compute. discriminate. Qed.

(** *** Whitespace and [trim] *)

Lemma trimStart_nil_iff (s : jsstring) : trimStart s = [] <-> blank s.
Proof.
  unfold blank. induction s as [|c s IH]; cbn.
  - split; [constructor | reflexivity].
  - destruct (isWhiteSpace c) eqn:E.
    + rewrite IH. split.
      * intros H. constructor; assumption.
      * intros H. inversion H; assumption.
    + split; [discriminate |].
      intros H. inversion H; congruence.
Qed.

(** What [trimStart] leaves starts with a character that stays. *)
Lemma trimStart_head (s : jsstring) (c : N) (r : jsstring) :
  trimStart s = c :: r -> isWhiteSpace c = false.
Proof.
  induction s as [|d s IH]; cbn; [discriminate |].
  destruct (isWhiteSpace d) eqn:E; [exact IH |].
  intros [= -> ->]. exact E.
Qed.

Lemma trim_nil_iff (s : jsstring) : trim s = [] <-> blank s.
Proof.
  unfold trim, trimEnd. split.
  - intros H. apply (f_equal (@rev N)) in H. rewrite rev_involutive in H.
    cbn in H. apply trimStart_nil_iff in H.
    apply trimStart_nil_iff.
    destruct (trimStart s) as [|c r] eqn:E; [reflexivity |].
    apply trimStart_head in E.
    unfold blank in H. rewrite Forall_forall in H.
    specialize (H c). rewrite H in E; [discriminate |].
    apply list_elem_of_In, (proj1 (in_rev _ _)). left. reflexivity.
  - intros H. apply trimStart_nil_iff in H. rewrite H. reflexivity.
Qed.

Lemma displayLog_guard (s : jsstring) :
  jseq (trim s) (lit "") = true <-> blank s.
Proof. rewrite jseq_true. apply trim_nil_iff. Qed.

(** *** The guard of the copy handlers *)

Lemma copy_guard_true (s : jsstring) :
  truthy s && negb (jseq s requiredMessage) = true <-> copyable s.
Proof.
  unfold copyable. rewrite andb_true_iff, negb_true_iff. split.
  - intros [Ht Hn]. split.
    + intros ->. discriminate.
    + intros ->. rewrite jseq_refl in Hn. discriminate.
  - intros [Hne Hnr]. split.
    + destruct s; [contradiction | reflexivity].
    + apply jseq_neq. exact Hnr.
Qed.

Lemma copy_guard_false (s : jsstring) :
  truthy s && negb (jseq s requiredMessage) = false <-> ~ copyable s.
Proof.
  rewrite <- copy_guard_true. symmetry. apply not_true_iff_false.
Qed.

Lemma marketPage_filled :
  Forall (filled marketPage) (formInputs (lit "market-order")).
Proof. repeat constructor. Qed.

Lemma marketPage_command :
  textContent (generatedCommandPre (generateCommand (lit "market-order") marketPage))
  = lit "python bot.py market-order --symbol BTCUSDT --side BUY --quantity 0.001".
Proof.
  rewrite generateCommand_table by (unfold supportedTypes; set_solver).
  rewrite (proj2 (allFilled_true _ _) marketPage_filled). reflexivity.
Qed.

Lemma marketPage_no_price :
  Exists (fun id => ~ filled marketPage id) (formInputs (lit "limit-order")).
Proof.
  unfold formInputs. switch_eval.
  do 3 apply Exists_cons_tl. apply Exists_cons_hd.
  unfold filled. vm_compute. discriminate.
Qed.

Lemma marketPage_limit_message :
  textContent (generatedCommandPre (generateCommand (lit "limit-order") marketPage))
  = requiredMessage.
Proof.
  rewrite generateCommand_table by (unfold supportedTypes; set_solver).
  rewrite (proj2 (allFilled_false _ _) marketPage_no_price). reflexivity.
Qed.

(** *** C8 *)

(** C8.  For every supported command type and every assignment of the
    input fields: if at least one required field is empty or its element
    is absent, the displayed text is exactly "Please fill all required
    fields." and the command output area is left as it was (in particular
    not unhidden); if all required fields are non-empty, the displayed
    text is "python bot.py " + commandType followed by every flag-value
    pair of that type in the fixed order of [formInputs], and the output
    area is unhidden. *)
Theorem generateCommand_required_fields (commandType : jsstring) (p : page) :
  commandType ∈ supportedTypes ->
  let p' := generateCommand commandType p in
  (Exists (fun id => ~ filled p id) (formInputs commandType) ->
     textContent (generatedCommandPre p') = requiredMessage /\
     commandOutputDiv p' = commandOutputDiv p) /\
  (Forall (filled p) (formInputs commandType) ->
     textContent (generatedCommandPre p')
     = lit "python bot.py " ++ commandType
         ++ concat ((fun id => lit " --" ++ lit id ++ lit " "
                                 ++ tpl (fields p !! id))
                      <$> formInputs commandType) /\
     "hidden" ∉ classList (commandOutputDiv p')).
Proof.
  intros Hin p'. subst p'. rewrite (generateCommand_table _ _ Hin). split.
  - intros Hex. apply allFilled_false in Hex. rewrite Hex.
    page_simpl. split; reflexivity.
  - intros Hall. apply allFilled_true in Hall. rewrite Hall.
    page_simpl. split; [reflexivity |].
    rewrite elem_of_difference, elem_of_singleton. tauto.
Qed.

Lemma generateCommand_required_fields_witness :
  textContent (generatedCommandPre (generateCommand (lit "market-order") marketPage))
  = lit "python bot.py market-order --symbol BTCUSDT --side BUY --quantity 0.001"
  /\ textContent (generatedCommandPre (generateCommand (lit "limit-order") marketPage))
     = lit "Please fill all required fields.".
Proof.
  split.
  - assert (Hin : lit "market-order" ∈ supportedTypes)
      by (unfold supportedTypes; set_solver).
    destruct (generateCommand_required_fields (lit "market-order") marketPage Hin)
      as [_ Hok].
    destruct (Hok marketPage_filled) as [Htext _]. exact Htext.
  - assert (Hin : lit "limit-order" ∈ supportedTypes)
      by (unfold supportedTypes; set_solver).
    destruct (generateCommand_required_fields (lit "limit-order") marketPage Hin)
      as [Hbad _].
    destruct (Hbad marketPage_no_price) as [Htext _]. exact Htext.
Defined.

(** *** C1 *)

(** C1, as the code has it.  For every order type that has a "Generate
    Command" button and every assignment of the input fields,
    [generateCommand] changes nothing but the generated-command element
    and the classes of the output area.  When every required field is
    non-empty the text it displays is "python bot.py " followed by the
    command type and its flag-value pairs, with the values put in
    verbatim whatever they are: no value is compared with a tick, a step,
    a minimum, a maximum or a notional.  When a required field is empty
    the text is the fixed message instead. *)
Theorem generateCommand_only_builds_command (commandType : jsstring) (p : page) :
  commandType ∈ supportedTypes ->
  let p' := generateCommand commandType p in
  onlyCommandDisplayChanged p p' /\
  (Forall (filled p) (formInputs commandType) ->
     exists args,
       textContent (generatedCommandPre p')
       = lit "python bot.py " ++ commandType ++ args /\
       args = concat (flagPair p <$> formInputs commandType)) /\
  (~ Forall (filled p) (formInputs commandType) ->
     textContent (generatedCommandPre p') = requiredMessage).
Proof.
  intros Hin p'. subst p'. rewrite (generateCommand_table _ _ Hin).
  destruct (allFilled p (formInputs commandType)) eqn:E.
  - apply allFilled_true in E. split; [| split].
    + split; reflexivity.
    + intros _. eexists. split; reflexivity.
    + intros Hnot. contradiction.
  - apply not_true_iff_false in E. rewrite allFilled_true in E.
    split; [| split].
    + split; reflexivity.
    + intros Hall. contradiction.
    + intros _. reflexivity.
Qed.

Lemma generateCommand_only_builds_command_witness :
  textContent (generatedCommandPre (generateCommand (lit "grid-order") nonsensePage))
  = lit ("python bot.py grid-order --symbol ??? --min-price 9 --max-price 1"
         ++ " --num-buy-orders -2 --num-sell-orders 0 --quantity-per-order -5")
  /\ clipboard (generateCommand (lit "grid-order") nonsensePage)
     = clipboard nonsensePage.
Proof.
  assert (Hin : lit "grid-order" ∈ supportedTypes)
    by (unfold supportedTypes; set_solver).
  destruct (generateCommand_only_builds_command (lit "grid-order") nonsensePage Hin)
    as [[Hframe _] [Hok _]].
  split.
  - destruct Hok as [args [Htext ->]].
    + repeat constructor.
    + exact Htext.
  - rewrite Hframe. reflexivity.
Defined.

(** C1 as stated does not hold: on the market-order form with nothing
    typed in, the text that [generateCommand] displays is not a command
    beginning with "python bot.py ". *)
Lemma generateCommand_empty_fields_counterexample :
  lit "market-order" ∈ supportedTypes
  /\ buttonOf (orderFormsDiv emptyMarketForm) = Some (lit "market-order")
  /\ textContent (generatedCommandPre
                    (generateCommand (lit "market-order") emptyMarketForm))
     = lit "Please fill all required fields."
  /\ ~ (exists rest,
          textContent (generatedCommandPre
                         (generateCommand (lit "market-order") emptyMarketForm))
          = lit "python bot.py " ++ rest).
Proof.
  assert (Hin : lit "market-order" ∈ supportedTypes)
    by (unfold supportedTypes; set_solver).
  assert (Hempty : Exists (fun id => ~ filled emptyMarketForm id)
                          (formInputs (lit "market-order"))).
  { unfold formInputs. switch_eval. apply Exists_cons_hd.
    unfold filled, emptyMarketForm.
    rewrite showOrderForm_fields by exact Hin.
    cbn [orderTypeSelect withOrderType]. unfold formInputs. switch_eval.
    rewrite bool_decide_eq_true_2 by (apply list_elem_of_here).
    cbn. discriminate. }
  assert (Htext : textContent (generatedCommandPre
                    (generateCommand (lit "market-order") emptyMarketForm))
                  = requiredMessage).
  { rewrite generateCommand_table by exact Hin.
    rewrite (proj2 (allFilled_false _ _) Hempty). reflexivity. }
  split; [exact Hin |]. split; [| split].
  - unfold emptyMarketForm, showOrderForm.
    cbn [orderTypeSelect withOrderType].
    rewrite bool_decide_eq_true_2 by exact Hin.
    unfold formInputs. switch_eval. reflexivity.
  - exact Htext.
  - intros [rest Hrest]. rewrite Htext in Hrest.
    revert Hrest. apply requiredMessage_not_command.
Qed.

(** *** C9 *)

Lemma normalizeFrom_blank (afterCR : bool) (s : jsstring) :
  blank (normalizeFrom afterCR s) <-> blank s.
Proof.
  unfold blank. revert afterCR.
  induction s as [| c s IH]; intros afterCR; cbn [normalizeFrom].
  - reflexivity.
  - destruct (c =? 0xD) eqn:Ecr.
    + apply N.eqb_eq in Ecr. subst c.
      rewrite !Forall_cons, (IH true). split; intros [_ H]; split; auto.
    + destruct (c =? 0xA) eqn:Elf; cbn [andb].
      * apply N.eqb_eq in Elf. subst c. destruct afterCR.
        -- rewrite Forall_cons, (IH false). split; [intros H; split; auto | tauto].
        -- rewrite !Forall_cons, (IH false). reflexivity.
      * rewrite !Forall_cons, (IH false). reflexivity.
Qed.

Lemma normalizeNewlines_blank (s : jsstring) :
  blank (normalizeNewlines s) <-> blank s.
Proof. apply normalizeFrom_blank. Qed.

(** Without a CR there is nothing to normalise. *)
Lemma normalizeNewlines_no_CR (s : jsstring) :
  0xD ∉ s -> normalizeNewlines s = s.
Proof.
  unfold normalizeNewlines. induction s as [| c s IH]; intros Hno; [reflexivity |].
  apply not_elem_of_cons in Hno as [Hc Hs]. cbn [normalizeFrom].
  rewrite (proj2 (N.eqb_neq c 0xD)) by congruence.
  rewrite andb_false_r, IH by exact Hs. reflexivity.
Qed.

(** C9, as the page has it.  For every string pasted into the log
    textarea, a click on "Display Log" has this effect.  If the string is
    empty or whitespace-only, the text of the log output becomes exactly
    "No log content to display. Please paste content from bot.log." and
    the [hidden] class of the log output is left as it was.  Otherwise the
    text becomes the [value] of the textarea, which is the pasted string
    with every CR LF pair and every other CR replaced by LF, so a string
    without CR is shown unchanged, and the log output is unhidden.  The
    string goes into [textContent]; the markup of the page
    ([orderFormsDiv]) and every other part of it stay as they were. *)
Theorem displayLog_shows_log (pasted : jsstring) (p : page) :
  let q := step (PasteLog pasted) p in
  let p' := step ClickDisplayLog q in
  (blank pasted ->
     textContent (logOutputDiv p') = noLogMessage
     /\ ("hidden" ∈ classList (logOutputDiv p')
         <-> "hidden" ∈ classList (logOutputDiv p)))
  /\ (~ blank pasted ->
        textContent (logOutputDiv p') = normalizeNewlines pasted
        /\ "hidden" ∉ classList (logOutputDiv p'))
  /\ (~ blank pasted -> 0xD ∉ pasted ->
        textContent (logOutputDiv p') = pasted)
  /\ p' = withLogOutputDiv (logOutputDiv p') q.
Proof.
  intros q p'. subst q p'. cbn [step]. unfold displayLog.
  cbn [logInputTextarea withLogInput].
  destruct (jseq (trim (normalizeNewlines pasted)) (lit "")) eqn:E.
  - rewrite displayLog_guard, normalizeNewlines_blank in E. page_simpl.
    split; [| split; [| split]].
    + intros _. split; [reflexivity |].
      cbn [logOutputDiv withLogInput].
      rewrite elem_of_union, elem_of_singleton. split; [| tauto].
      intros [H | H]; [discriminate H | exact H].
    + intros Hnot. destruct (Hnot E).
    + intros Hnot. destruct (Hnot E).
    + reflexivity.
  - apply not_true_iff_false in E.
    rewrite displayLog_guard, normalizeNewlines_blank in E.
    page_simpl. split; [| split; [| split]].
    + intros Hb. destruct (E Hb).
    + intros _. split; [reflexivity |].
      rewrite elem_of_difference, elem_of_singleton. tauto.
    + intros _ Hno. apply normalizeNewlines_no_CR. exact Hno.
    + reflexivity.
Qed.

(** A pasted line of markup is displayed as the same characters, and a
    string of spaces, tabs, line feeds and no-break spaces counts as
    empty. *)
Lemma displayLog_shows_log_witness :
  textContent (logOutputDiv
    (step ClickDisplayLog
       (step (PasteLog (lit " <b>ERROR</b> order rejected ")) loadedPage)))
  = lit " <b>ERROR</b> order rejected "
  /\ textContent (logOutputDiv
       (step ClickDisplayLog
          (step (PasteLog [0x20; 0x9; 0xA; 0xA0; 0x3000]) loadedPage)))
     = noLogMessage.
Proof.
  split.
  - destruct (displayLog_shows_log (lit " <b>ERROR</b> order rejected ")
                loadedPage) as (_ & _ & Hshow & _).
    apply Hshow.
    + intros Hb. inversion Hb as [|? ? _ Hrest]; subst.
      inversion Hrest as [|? ? Hc _]; subst. vm_compute in Hc. discriminate.
    + intros Hin. vm_compute in Hin.
      repeat (apply elem_of_cons in Hin as [Hin | Hin]; [discriminate Hin |]).
      inversion Hin.
  - destruct (displayLog_shows_log [0x20; 0x9; 0xA; 0xA0; 0x3000] loadedPage)
      as (Hblank & _).
    apply Hblank. repeat constructor.
Defined.

(** Two lines of a log file that was written with CR LF line ends, the
    second line ending in a bare CR. *)
Definition crlfLog : jsstring :=
  lit "a" ++ [0xD; 0xA] ++ lit "b" ++ [0xD] ++ lit "c".

(** C9 as stated does not hold: a pasted string that is not blank and
    contains a CR is not displayed unchanged; the log output shows it with
    LF line ends. *)
Lemma displayLog_crlf_counterexample :
  ~ blank crlfLog
  /\ textContent (logOutputDiv
       (step ClickDisplayLog (step (PasteLog crlfLog) loadedPage)))
     = lit "a" ++ [0xA] ++ lit "b" ++ [0xA] ++ lit "c"
  /\ textContent (logOutputDiv
       (step ClickDisplayLog (step (PasteLog crlfLog) loadedPage)))
     <> crlfLog.
Proof.
  assert (Hnb : ~ blank crlfLog).
  { intros Hb. inversion Hb as [|? ? Hc _]; subst.
    vm_compute in Hc. discriminate. }
  assert (Htext : textContent (logOutputDiv
            (step ClickDisplayLog (step (PasteLog crlfLog) loadedPage)))
          = normalizeNewlines crlfLog).
  { cbn [step]. unfold displayLog. cbn [logInputTextarea withLogInput].
    rewrite jseq_neq; [reflexivity |].
    intros E. apply Hnb, normalizeNewlines_blank, trim_nil_iff. exact E. }
  split; [exact Hnb |]. rewrite Htext. split.
  - vm_compute. reflexivity.
  - vm_compute. discriminate.
Qed.

(** *** C10 *)

(** C10.  The copy handlers act only on a generated command.  The
    document-level listener puts the generated-command text on the
    clipboard data and prevents the default copy exactly when that text
    is non-empty and differs from "Please fill all required fields.";
    otherwise it leaves the event alone, so the data it sets is never
    empty and never that message.  [copyCommand] removes the [hidden]
    class of the "Copied to clipboard!" message (and copies the command)
    under the same condition, and otherwise leaves the page as it is. *)
Theorem copy_handlers_guard (p : page) (e : clipboardEvent) :
  let commandText := textContent (generatedCommandPre p) in
  (copyable commandText ->
     copyListener p e = preventDefault (setData "text/plain" commandText e))
  /\ (~ copyable commandText -> copyListener p e = e)
  /\ (forall format data,
        clipboardData (copyListener p e) !! format = Some data ->
        clipboardData e !! format <> Some data ->
        format = "text/plain" /\ data = commandText /\ copyable data)
  /\ (defaultPrevented (copyListener p e) = true ->
        defaultPrevented e = false -> copyable commandText)
  /\ (copyable commandText ->
        ("hidden" ∉ classList (copyMessageP (copyCommand p)))
        /\ clipboard (copyCommand p) = commandText)
  /\ (~ copyable commandText -> copyCommand p = p).
Proof.
  intros commandText. subst commandText.
  unfold copyCommand, execCommandCopy, copyListener.
  destruct (truthy (textContent (generatedCommandPre p))
            && negb (jseq (textContent (generatedCommandPre p)) requiredMessage))
    eqn:E.
  - apply copy_guard_true in E.
    split; [intros _; reflexivity |].
    split; [intros Hnot; contradiction |].
    split.
    { intros format data Hnew Hold. cbn in Hnew.
      destruct (decide (format = "text/plain")) as [-> | Hne].
      - rewrite lookup_insert_eq in Hnew. injection Hnew as <-.
        repeat split; try reflexivity; apply E.
      - rewrite lookup_insert_ne in Hnew by congruence. contradiction. }
    split; [intros _ _; exact E |].
    split; [| intros Hnot; contradiction].
    intros _. cbn. rewrite lookup_insert_eq. page_simpl. split.
    + rewrite elem_of_difference, elem_of_singleton. tauto.
    + reflexivity.
  - apply copy_guard_false in E.
    split; [intros Hyes; contradiction |].
    split; [intros _; reflexivity |].
    split; [intros format data Hnew Hold; contradiction |].
    split; [intros Hnew Hold; congruence |].
    split; [intros Hyes; contradiction | intros _; reflexivity].
Qed.

(** After a command has been generated, the Copy button puts that command
    on the clipboard and shows the confirmation; after a failed
    generation it does nothing. *)
Lemma copy_handlers_guard_witness :
  (let p := copyCommand (generateCommand (lit "market-order") marketPage) in
   clipboard p
   = lit "python bot.py market-order --symbol BTCUSDT --side BUY --quantity 0.001"
   /\ "hidden" ∉ classList (copyMessageP p))
  /\ (let p := generateCommand (lit "limit-order") marketPage in
      copyCommand p = p).
Proof.
  split; cbn zeta.
  - pose proof (copy_handlers_guard
                  (generateCommand (lit "market-order") marketPage)
                  {| clipboardData := ∅; defaultPrevented := false |}) as H.
    cbn zeta in H. destruct H as (_ & _ & _ & _ & Hcopy & _).
    rewrite marketPage_command in Hcopy. destruct Hcopy as [Hhidden Hclip].
    + split; vm_compute; discriminate.
    + split; assumption.
  - pose proof (copy_handlers_guard
                  (generateCommand (lit "limit-order") marketPage)
                  {| clipboardData := ∅; defaultPrevented := false |}) as H.
    cbn zeta in H. destruct H as (_ & _ & _ & _ & _ & Hskip).
    apply Hskip. intros [_ Hne]. apply Hne. apply marketPage_limit_message.
Defined.

(** ** Further properties of the handlers *)

Ltac classes :=
  apply set_eq; intros ?;
  rewrite ?elem_of_union, ?elem_of_difference, ?elem_of_singleton; tauto.

Lemma element_eq (e1 e2 : element) :
  textContent e1 = textContent e2 -> classList e1 = classList e2 -> e1 = e2.
Proof. destruct e1, e2. cbn. intros -> ->. reflexivity. Qed.

Lemma page_eta (p : page) : withFields (fields p) p = p.
Proof. destruct p. reflexivity. Qed.

(** One description of [generateCommand] for every command type. *)
Lemma generateCommand_show (commandType : jsstring) (p : page) :
  generateCommand commandType p
  = showCommand (accepts commandType p) (commandLine commandType p) p.
Proof.
  unfold accepts.
  destruct (decide (commandType ∈ supportedTypes)) as [Hin | Hnot].
  - rewrite bool_decide_eq_true_2, generateCommand_table by exact Hin.
    reflexivity.
  - rewrite bool_decide_eq_false_2, generateCommand_default by exact Hnot.
    reflexivity.
Qed.

Lemma accepts_true (commandType : jsstring) (p : page) :
  accepts commandType p = true
  <-> commandType ∈ supportedTypes /\ Forall (filled p) (formInputs commandType).
Proof.
  unfold accepts. rewrite andb_true_iff, bool_decide_eq_true, allFilled_true.
  reflexivity.
Qed.

Lemma accepts_fields (commandType : jsstring) (p q : page) :
  fields p = fields q -> accepts commandType p = accepts commandType q.
Proof. intros E. unfold accepts, allFilled. rewrite E. reflexivity. Qed.

Lemma commandLine_fields (commandType : jsstring) (p q : page) :
  fields p = fields q -> commandLine commandType p = commandLine commandType q.
Proof. intros E. unfold commandLine, flagPair. rewrite E. reflexivity. Qed.

Lemma showCommand_fields (b : bool) (c : jsstring) (p : page) :
  fields (showCommand b c p) = fields p.
Proof. destruct b; reflexivity. Qed.

Lemma commandLine_copyable (commandType : jsstring) (p : page) :
  copyable (commandLine commandType p).
Proof.
  split.
  - unfold commandLine. vm_compute. discriminate.
  - intros E. symmetry in E. revert E. apply requiredMessage_not_command.
Qed.

Lemma requiredMessage_not_copyable : ~ copyable requiredMessage.
Proof. intros [_ H]. apply H. reflexivity. Qed.

Lemma copyListener_copyable (p : page) (e : clipboardEvent) :
  copyable (textContent (generatedCommandPre p)) ->
  copyListener p e
  = preventDefault (setData "text/plain" (textContent (generatedCommandPre p)) e).
Proof.
  intros H. unfold copyListener.
  rewrite (proj2 (copy_guard_true _) H). reflexivity.
Qed.

Lemma copyListener_not_copyable (p : page) (e : clipboardEvent) :
  ~ copyable (textContent (generatedCommandPre p)) -> copyListener p e = e.
Proof.
  intros H. unfold copyListener.
  rewrite (proj2 (copy_guard_false _) H). reflexivity.
Qed.

Lemma showOrderForm_supported_button (p : page) :
  orderTypeSelect p ∈ supportedTypes ->
  buttonOf (orderFormsDiv (showOrderForm p)) = Some (orderTypeSelect p).
Proof.
  intros Hin. unfold showOrderForm. rewrite bool_decide_eq_true_2 by exact Hin.
  destruct (formInputs (orderTypeSelect p)); reflexivity.
Qed.

Lemma showOrderForm_orderType (p : page) :
  orderTypeSelect (showOrderForm p) = orderTypeSelect p.
Proof.
  unfold showOrderForm. destruct (bool_decide _); [| reflexivity].
  destruct (formInputs (orderTypeSelect p)); reflexivity.
Qed.

Lemma showOrderForm_display (p : page) :
  commandOutputDiv (showOrderForm p) = classAdd "hidden" (commandOutputDiv p)
  /\ copyMessageP (showOrderForm p) = classAdd "hidden" (copyMessageP p)
  /\ generatedCommandPre (showOrderForm p) = generatedCommandPre p
  /\ logOutputDiv (showOrderForm p) = logOutputDiv p
  /\ logInputTextarea (showOrderForm p) = logInputTextarea p.
Proof.
  unfold showOrderForm. destruct (bool_decide _);
    [destruct (formInputs (orderTypeSelect p)) |]; repeat split; reflexivity.
Qed.

Lemma showOrderForm_unsupported (p : page) :
  orderTypeSelect p ∉ supportedTypes ->
  buttonOf (orderFormsDiv (showOrderForm p)) = None
  /\ fields (showOrderForm p) = ∅.
Proof.
  intros Hnot. unfold showOrderForm.
  rewrite bool_decide_eq_false_2 by exact Hnot. split; reflexivity.
Qed.

Lemma typeInto_fields (q : page) (id : string) (v : jsstring) (j : string) :
  fields (step (TypeInto id v) q) !! j
  = match fields q !! j with
    | Some w => Some (if bool_decide (j = id) then controlValue id v else w)
    | None => None
    end.
Proof.
  cbn [step]. destruct (fields q !! id) as [w0 |] eqn:E.
  - cbn [fields withFields withForm].
    destruct (decide (j = id)) as [-> | Hne].
    + rewrite lookup_insert_eq, E, bool_decide_eq_true_2 by reflexivity.
      reflexivity.
    + rewrite lookup_insert_ne, bool_decide_eq_false_2 by congruence.
      destruct (fields q !! j); reflexivity.
  - destruct (decide (j = id)) as [-> | Hne].
    + rewrite E. reflexivity.
    + rewrite bool_decide_eq_false_2 by congruence.
      destruct (fields q !! j); reflexivity.
Qed.

Lemma typeInto_frame (q : page) (id : string) (v : jsstring) :
  step (TypeInto id v) q = withFields (fields (step (TypeInto id v) q)) q.
Proof.
  cbn [step]. destruct (fields q !! id).
  - reflexivity.
  - symmetry. apply page_eta.
Qed.

Lemma fillForm_frame (vals : string -> jsstring) (ids : list string) (q : page) :
  fillForm vals ids q = withFields (fields (fillForm vals ids q)) q.
Proof.
  unfold fillForm. revert q. induction ids as [| i ids IH]; intros q.
  - symmetry. apply page_eta.
  - cbn [foldl]. rewrite IH at 1. rewrite (typeInto_frame q i (vals i)) at 2.
    reflexivity.
Qed.

Lemma fillForm_fields (vals : string -> jsstring) (ids : list string) (q : page)
    (j : string) :
  fields (fillForm vals ids q) !! j
  = match fields q !! j with
    | Some w =>
        Some (if bool_decide (j ∈ ids) then controlValue j (vals j) else w)
    | None => None
    end.
Proof.
  unfold fillForm. revert q. induction ids as [| i ids IH]; intros q.
  - cbn [foldl]. destruct (fields q !! j); [| reflexivity].
    rewrite bool_decide_eq_false_2 by apply not_elem_of_nil. reflexivity.
  - cbn [foldl]. rewrite IH, typeInto_fields.
    destruct (fields q !! j) as [w |]; [| reflexivity]. f_equal.
    destruct (decide (j ∈ ids)) as [Hin | Hnot].
    + rewrite !bool_decide_eq_true_2; [reflexivity | right; exact Hin | exact Hin].
    + rewrite (bool_decide_eq_false_2 (j ∈ ids)) by exact Hnot.
      destruct (decide (j = i)) as [-> | Hne].
      * rewrite !bool_decide_eq_true_2; [reflexivity | left | reflexivity].
      * rewrite !bool_decide_eq_false_2; [reflexivity | | exact Hne].
        rewrite elem_of_cons. tauto.
Qed.

Lemma showCommand_idemp (b : bool) (c : jsstring) (p : page) :
  showCommand b c (showCommand b c p) = showCommand b c p.
Proof.
  destruct b; unfold showCommand, withCommandOutputDiv, withGeneratedCommandPre;
    cbn; f_equal; apply element_eq; cbn; try reflexivity; classes.
Qed.

Lemma copyCommand_copyable (p : page) :
  copyable (textContent (generatedCommandPre p)) ->
  copyCommand p
  = withTimers (timers p ++ [(2000, HideCopyMessage)])
      (withCopyMessageP (classRemove "hidden" (copyMessageP p))
         (withClipboard (textContent (generatedCommandPre p)) p)).
Proof.
  intros H. unfold copyCommand, execCommandCopy.
  rewrite (proj2 (copy_guard_true _) H), (copyListener_copyable _ _ H).
  cbn. rewrite lookup_insert_eq. reflexivity.
Qed.

Lemma copyCommand_not_copyable (p : page) :
  ~ copyable (textContent (generatedCommandPre p)) -> copyCommand p = p.
Proof.
  intros H. unfold copyCommand.
  rewrite (proj2 (copy_guard_false _) H). reflexivity.
Qed.

Lemma step_form (a : action) (p : page) :
  match a with
  | SelectOrderType _ | TypeInto _ _ => True
  | _ => orderTypeSelect (step a p) = orderTypeSelect p
         /\ orderFormsDiv (step a p) = orderFormsDiv p
         /\ fields (step a p) = fields p
  end.
Proof.
  destruct a as [t | id v | | | s |]; cbn [step]; try exact I.
  - unfold clickGenerate, generateCommandWrapper.
    destruct (buttonOf (orderFormsDiv p)); [| repeat split; reflexivity].
    rewrite generateCommand_show.
    destruct (accepts _ _); repeat split; reflexivity.
  - destruct (decide (copyable (textContent (generatedCommandPre p)))) as [H | H].
    + rewrite (copyCommand_copyable _ H). repeat split; reflexivity.
    + rewrite (copyCommand_not_copyable _ H). repeat split; reflexivity.
  - repeat split; reflexivity.
  - unfold displayLog. destruct (jseq _ _); repeat split; reflexivity.
Qed.

Lemma showOrderForm_matches (p : page) : formMatchesSelection (showOrderForm p).
Proof.
  unfold formMatchesSelection. rewrite showOrderForm_orderType.
  case_bool_decide as Hsel.
  - split; [apply showOrderForm_supported_button; exact Hsel |].
    intros id. rewrite (showOrderForm_fields _ _ Hsel).
    case_bool_decide as Hid; split; intros H; try assumption;
      try (eexists; reflexivity).
    + destruct H as [? H]. discriminate H.
    + contradiction.
  - apply showOrderForm_unsupported. exact Hsel.
Qed.

(** *** X1 *)

(** X1.  A command type that has no case of its own in the switch takes
    the [default] branch: whatever the fields hold, the displayed text is
    "Please fill all required fields.", in red, and the output area is
    left as it was.  The comparison is exact, so a type that differs from
    a supported one by case only is unknown too. *)
Theorem generateCommand_unknown_type (commandType : jsstring) (p : page) :
  commandType ∉ supportedTypes ->
  let p' := generateCommand commandType p in
  textContent (generatedCommandPre p') = requiredMessage
  /\ commandOutputDiv p' = commandOutputDiv p
  /\ "text-red-400" ∈ classList (generatedCommandPre p').
Proof.
  intros Hnot p'. subst p'. rewrite generateCommand_default by exact Hnot.
  page_simpl. repeat split.
  rewrite elem_of_union, elem_of_singleton. left. reflexivity.
Qed.

Lemma generateCommand_unknown_type_witness :
  textContent (generatedCommandPre
                 (generateCommand (lit "Market-Order") marketPage))
  = lit "Please fill all required fields.".
Proof.
  apply (generateCommand_unknown_type (lit "Market-Order") marketPage).
  unfold supportedTypes. intros H.
  repeat (apply elem_of_cons in H as [H | H];
          [vm_compute in H; discriminate H |]).
  inversion H.
Defined.

(** *** X2 *)

(** X2.  After [generateCommand], for every command type and every page,
    the generated-command element carries the class [text-red-400]
    exactly when it shows the message "Please fill all required fields.",
    and it shows that message exactly when the type is unknown or one of
    its inputs has no value: the red style of an earlier failure never
    stays on a command, and a failure is never shown without it. *)
Theorem generateCommand_error_style (commandType : jsstring) (p : page) :
  let p' := generateCommand commandType p in
  ("text-red-400" ∈ classList (generatedCommandPre p')
   <-> textContent (generatedCommandPre p') = requiredMessage)
  /\ (textContent (generatedCommandPre p') = requiredMessage
      <-> ~ (commandType ∈ supportedTypes
             /\ Forall (filled p) (formInputs commandType))).
Proof.
  intros p'. subst p'. rewrite generateCommand_show.
  destruct (accepts commandType p) eqn:E; page_simpl.
  - apply accepts_true in E. split; split.
    + rewrite elem_of_difference, elem_of_singleton. tauto.
    + intros H. symmetry in H. destruct (requiredMessage_not_command _ H).
    + intros H. symmetry in H. destruct (requiredMessage_not_command _ H).
    + intros H. contradiction.
  - apply not_true_iff_false in E. rewrite accepts_true in E. split; split.
    + reflexivity.
    + intros _. rewrite elem_of_union, elem_of_singleton. left. reflexivity.
    + intros _. exact E.
    + reflexivity.
Qed.

(** *** X3 *)

(** X3.  Clicking "Generate Command" a second time without touching the
    form changes nothing: [generateCommand] reads the fields and writes
    only the display, so running it again gives the same page. *)
Theorem generateCommand_idempotent (commandType : jsstring) (p : page) :
  generateCommand commandType (generateCommand commandType p)
  = generateCommand commandType p.
Proof.
  rewrite !generateCommand_show.
  rewrite (accepts_fields commandType (showCommand _ _ p) p),
          (commandLine_fields commandType (showCommand _ _ p) p)
    by apply showCommand_fields.
  apply showCommand_idemp.
Qed.

(** *** X4 *)

(** X4.  Right after an order type is selected, a click on "Generate
    Command" finds every input of the new form empty.  For a type with
    inputs the text becomes "Please fill all required fields." while the
    output area keeps the [hidden] class that [showOrderForm] has just
    given it, so the message is set but not shown.  For a type without
    inputs (check-balance) the command "python bot.py " + type is shown
    at once. *)
Theorem select_then_generate (commandType : jsstring) (p : page) :
  commandType ∈ supportedTypes ->
  let p' := step ClickGenerate (step (SelectOrderType commandType) p) in
  (formInputs commandType <> [] ->
     textContent (generatedCommandPre p') = requiredMessage
     /\ "hidden" ∈ classList (commandOutputDiv p'))
  /\ (formInputs commandType = [] ->
        textContent (generatedCommandPre p') = lit "python bot.py " ++ commandType
        /\ "hidden" ∉ classList (commandOutputDiv p')).
Proof.
  intros Hin p'. subst p'. cbn [step].
  assert (Hsel : orderTypeSelect (withOrderType commandType p) ∈ supportedTypes)
    by exact Hin.
  pose proof (showOrderForm_supported_button _ Hsel) as Hbutton.
  pose proof (fun id => showOrderForm_fields _ id Hsel) as Hfields.
  pose proof (proj1 (showOrderForm_display (withOrderType commandType p)))
    as Hout.
  cbn [orderTypeSelect commandOutputDiv withOrderType] in Hbutton, Hfields, Hout.
  generalize dependent (showOrderForm (withOrderType commandType p)).
  intros q Hbutton Hfields Hout.
  unfold clickGenerate, generateCommandWrapper. rewrite Hbutton.
  rewrite generateCommand_table by exact Hin. split.
  - intros Hne.
    assert (Hempty : allFilled q (formInputs commandType) = false).
    { apply allFilled_false.
      destruct (formInputs commandType) as [| id ids] eqn:E; [contradiction |].
      apply Exists_cons_hd. unfold filled. rewrite Hfields.
      rewrite bool_decide_eq_true_2 by apply list_elem_of_here.
      cbn. discriminate. }
    rewrite Hempty. page_simpl. split; [reflexivity |].
    rewrite Hout. cbn [classList classAdd].
    rewrite elem_of_union, elem_of_singleton. left. reflexivity.
  - intros Hnil. unfold commandLine. rewrite Hnil. cbn [allFilled forallb].
    page_simpl. cbn [fmap list_fmap concat]. rewrite !app_nil_r.
    split; [reflexivity |].
    rewrite elem_of_difference, elem_of_singleton. tauto.
Qed.

Lemma supported_oco : lit "oco-order" ∈ supportedTypes.
Proof. unfold supportedTypes. do 3 right. left. Qed.

Lemma supported_check_balance : lit "check-balance" ∈ supportedTypes.
Proof. unfold supportedTypes. left. Qed.

Lemma select_then_generate_witness :
  "hidden" ∈ classList (commandOutputDiv
     (step ClickGenerate (step (SelectOrderType (lit "oco-order")) marketPage)))
  /\ textContent (generatedCommandPre
       (step ClickGenerate
          (step (SelectOrderType (lit "check-balance")) marketPage)))
     = lit "python bot.py check-balance".
Proof.
  split.
  - destruct (select_then_generate (lit "oco-order") marketPage supported_oco)
      as [Hfields _].
    apply Hfields. unfold formInputs. switch_eval. discriminate.
  - destruct (select_then_generate (lit "check-balance") marketPage
                supported_check_balance) as [_ Hnone].
    apply Hnone. unfold formInputs. switch_eval. reflexivity.
Defined.

(** *** X5 *)

(** X5.  The form that [showOrderForm] injects for an order type has every
    input that [generateCommand] asks for, and no other: select the type,
    put a text into each input of the form and click "Generate Command".
    When every control then reports a value that is not empty, the text is
    "python bot.py " + type followed by " --id value" for each input in
    the order of the form, with the values as the controls report them,
    and the output area is shown.  When one control reports the empty
    string (nothing typed, letters in a number input, a side that is not
    an option) the text is "Please fill all required fields." and the
    output area stays hidden. *)
Theorem fill_then_generate (commandType : jsstring) (vals : string -> jsstring)
    (p : page) :
  commandType ∈ supportedTypes ->
  let p' :=
    step ClickGenerate
      (fillForm vals (formInputs commandType)
         (step (SelectOrderType commandType) p)) in
  ((forall id, id ∈ formInputs commandType -> controlValue id (vals id) <> []) ->
     textContent (generatedCommandPre p')
     = lit "python bot.py " ++ commandType
         ++ concat ((fun id => lit " --" ++ lit id ++ lit " "
                                 ++ controlValue id (vals id))
                      <$> formInputs commandType)
     /\ "hidden" ∉ classList (commandOutputDiv p'))
  /\ ((exists id, id ∈ formInputs commandType /\ controlValue id (vals id) = []) ->
        textContent (generatedCommandPre p') = requiredMessage
        /\ "hidden" ∈ classList (commandOutputDiv p')).
Proof.
  intros Hin p'. subst p'. cbn [step].
  set (q := showOrderForm (withOrderType commandType p)).
  assert (Hsel : orderTypeSelect (withOrderType commandType p) ∈ supportedTypes)
    by exact Hin.
  set (r := fillForm vals (formInputs commandType) q).
  assert (Hbutton : buttonOf (orderFormsDiv r) = Some commandType).
  { unfold r. rewrite fillForm_frame. cbn [orderFormsDiv withFields withForm].
    unfold q. rewrite (showOrderForm_supported_button _ Hsel). reflexivity. }
  assert (Hfield : forall id, id ∈ formInputs commandType ->
                     fields r !! id = Some (controlValue id (vals id))).
  { intros id Hid. unfold r. rewrite fillForm_fields. unfold q.
    rewrite (showOrderForm_fields _ _ Hsel).
    cbn [orderTypeSelect withOrderType].
    rewrite !bool_decide_eq_true_2 by exact Hid. reflexivity. }
  assert (Hout : commandOutputDiv r
                 = classAdd "hidden" (commandOutputDiv (withOrderType commandType p))).
  { unfold r. rewrite fillForm_frame. cbn [commandOutputDiv withFields withForm].
    unfold q. apply showOrderForm_display. }
  unfold clickGenerate, generateCommandWrapper. rewrite Hbutton.
  rewrite generateCommand_table by exact Hin. split.
  - intros Hvals.
    assert (Hall : allFilled r (formInputs commandType) = true).
    { apply allFilled_true, Forall_forall. intros id Hid. unfold filled.
      rewrite (Hfield id Hid). specialize (Hvals id Hid).
      destruct (controlValue id (vals id)); [contradiction | reflexivity]. }
    rewrite Hall. page_simpl. split.
    + unfold commandLine. do 3 f_equal.
      apply Forall_fmap_ext, Forall_forall. intros id Hid.
      unfold flagPair. rewrite (Hfield id Hid). reflexivity.
    + rewrite elem_of_difference, elem_of_singleton. tauto.
  - intros (id & Hid & Hempty).
    assert (Hnone : allFilled r (formInputs commandType) = false).
    { apply allFilled_false, Exists_exists. exists id. split; [exact Hid |].
      unfold filled. rewrite (Hfield id Hid), Hempty. cbn. discriminate. }
    rewrite Hnone. page_simpl. split; [reflexivity |].
    rewrite Hout. cbn [classList classAdd].
    rewrite elem_of_union, elem_of_singleton. left. reflexivity.
Qed.

Lemma supported_limit : lit "limit-order" ∈ supportedTypes.
Proof. unfold supportedTypes. do 2 right. left. Qed.

(** What a user might put into a limit-order form. *)
Definition limitValues (id : string) : jsstring :=
  if String.eqb id "symbol" then lit "ETHUSDT"
  else if String.eqb id "side" then lit "SELL"
  else if String.eqb id "quantity" then lit "0.5"
  else lit "3100".

(** The same with letters for the quantity. *)
Definition lettersForQuantity (id : string) : jsstring :=
  if String.eqb id "quantity" then lit "abc" else limitValues id.

Lemma fill_then_generate_witness :
  textContent (generatedCommandPre
     (step ClickGenerate
        (fillForm limitValues (formInputs (lit "limit-order"))
           (step (SelectOrderType (lit "limit-order")) initialPage))))
  = lit "python bot.py limit-order --symbol ETHUSDT --side SELL --quantity 0.5 --price 3100"
  /\ textContent (generatedCommandPre
       (step ClickGenerate
          (fillForm lettersForQuantity (formInputs (lit "limit-order"))
             (step (SelectOrderType (lit "limit-order")) initialPage))))
     = lit "Please fill all required fields.".
Proof.
  split.
  - destruct (fill_then_generate (lit "limit-order") limitValues initialPage
                supported_limit) as [Hok _].
    destruct Hok as [Htext _].
    + intros id Hid. unfold formInputs in Hid. revert Hid. switch_eval.
      intros Hid.
      repeat (apply elem_of_cons in Hid as [-> | Hid];
              [vm_compute; discriminate |]).
      inversion Hid.
    + rewrite Htext. unfold formInputs. switch_eval. vm_compute. reflexivity.
  - destruct (fill_then_generate (lit "limit-order") lettersForQuantity
                initialPage supported_limit) as [_ Hbad].
    destruct Hbad as [Htext _]; [| exact Htext].
    exists "quantity". split; [| vm_compute; reflexivity].
    unfold formInputs. switch_eval. do 2 right. left.
Defined.

(** *** X6 *)

(** X6.  On every page that the user can reach from the loaded page by
    selecting order types, typing, pasting and clicking, the injected form
    is the one of the selected type: its inputs are exactly those of that
    type and its button calls [generateCommand] with that type, or, when
    no supported type is selected, there is neither input nor button.  So
    a click on "Generate Command" never reaches the [default] branch of
    the switch. *)
Theorem reachable_form_matches (p : page) :
  reachable p ->
  formMatchesSelection p
  /\ step ClickGenerate p
     = if bool_decide (orderTypeSelect p ∈ supportedTypes)
       then generateCommand (orderTypeSelect p) p
       else p.
Proof.
  intros Hreach.
  assert (Hinv : formMatchesSelection p).
  { induction Hreach as [| a p Hreach IH].
    - apply showOrderForm_matches.
    - pose proof (step_form a p) as Hform.
      destruct a as [t | id v | | | s |];
        try (destruct Hform as (Ht & Hm & Hf);
             unfold formMatchesSelection in *; rewrite Ht, Hm, Hf; exact IH).
      + cbn [step]. apply showOrderForm_matches.
      + unfold formMatchesSelection in *.
        assert (Ht : orderTypeSelect (step (TypeInto id v) p) = orderTypeSelect p)
          by (cbn [step]; destruct (fields p !! id); reflexivity).
        assert (Hm : orderFormsDiv (step (TypeInto id v) p) = orderFormsDiv p)
          by (cbn [step]; destruct (fields p !! id); reflexivity).
        rewrite Ht, Hm.
        destruct (bool_decide (orderTypeSelect p ∈ supportedTypes)).
        * destruct IH as [Hb Hdom]. split; [exact Hb |].
          intros j. rewrite <- Hdom, typeInto_fields.
          destruct (fields p !! j); split; intros [? H];
            try discriminate H; eexists; reflexivity.
        * destruct IH as [Hb Hempty]. split; [exact Hb |].
          cbn [step]. rewrite Hempty, lookup_empty. exact Hempty. }
  split; [exact Hinv |].
  cbn [step]. unfold clickGenerate, generateCommandWrapper.
  unfold formMatchesSelection in Hinv.
  destruct (bool_decide (orderTypeSelect p ∈ supportedTypes));
    destruct Hinv as [-> _]; reflexivity.
Qed.

Lemma reachable_form_matches_witness :
  formMatchesSelection
    (step ClickDisplayLog
       (step (TypeInto "price" (lit "3100"))
          (step (SelectOrderType (lit "limit-order")) loadedPage))).
Proof.
  apply reachable_form_matches.
  do 3 apply reachable_step. apply reachable_loaded.
Defined.

(** *** X7 *)

(** X7.  What can be copied is what was generated.  After
    [generateCommand] has accepted the form, the [copy] listener replaces
    the copied data by exactly the command line that is displayed, and the
    Copy button puts that command line on the clipboard.  After it has
    shown the message instead (a missing value or an unknown type), the
    listener leaves every copy alone and the Copy button does nothing. *)
Theorem generate_then_copy (commandType : jsstring) (p : page)
    (e : clipboardEvent) :
  let p' := generateCommand commandType p in
  (commandType ∈ supportedTypes /\ Forall (filled p) (formInputs commandType) ->
     copyListener p' e
     = preventDefault (setData "text/plain" (commandLine commandType p) e)
     /\ clipboard (copyCommand p') = commandLine commandType p)
  /\ (~ (commandType ∈ supportedTypes
         /\ Forall (filled p) (formInputs commandType)) ->
        copyListener p' e = e /\ copyCommand p' = p').
Proof.
  intros p'. subst p'. rewrite generateCommand_show.
  destruct (accepts commandType p) eqn:E.
  - apply accepts_true in E. split; [| intros H; contradiction].
    intros _.
    assert (Htext : textContent (generatedCommandPre
                      (showCommand true (commandLine commandType p) p))
                    = commandLine commandType p) by reflexivity.
    pose proof (commandLine_copyable commandType p) as Hc.
    rewrite <- Htext in Hc. split.
    + rewrite (copyListener_copyable _ _ Hc), Htext. reflexivity.
    + rewrite (copyCommand_copyable _ Hc). reflexivity.
  - apply not_true_iff_false in E. rewrite accepts_true in E.
    split; [intros H; contradiction |]. intros _.
    assert (Hc : ~ copyable (textContent (generatedCommandPre
                     (showCommand false (commandLine commandType p) p))))
      by exact requiredMessage_not_copyable.
    split.
    + apply copyListener_not_copyable. exact Hc.
    + apply copyCommand_not_copyable. exact Hc.
Qed.

(** *** X8 *)

(** X8.  Changing the order type hides the output area but does not clear
    the generated command: after a command has been generated and another
    order type selected, the output area carries [hidden], the old command
    is still the text of the generated-command element, and the [copy]
    listener still replaces whatever is copied on the page by that old
    command. *)
Theorem stale_command_after_select (commandType other : jsstring) (p : page)
    (e : clipboardEvent) :
  commandType ∈ supportedTypes ->
  Forall (filled p) (formInputs commandType) ->
  let p' := step (SelectOrderType other) (generateCommand commandType p) in
  "hidden" ∈ classList (commandOutputDiv p')
  /\ textContent (generatedCommandPre p') = commandLine commandType p
  /\ copyListener p' e
     = preventDefault (setData "text/plain" (commandLine commandType p) e).
Proof.
  intros Hin Hall p'. subst p'. cbn [step].
  destruct (showOrderForm_display
              (withOrderType other (generateCommand commandType p)))
    as (Hout & _ & Hpre & _).
  assert (Htext : textContent (generatedCommandPre
                    (showOrderForm
                       (withOrderType other (generateCommand commandType p))))
                  = commandLine commandType p).
  { rewrite Hpre. cbn [generatedCommandPre withOrderType].
    rewrite generateCommand_table by exact Hin.
    rewrite (proj2 (allFilled_true _ _) Hall). reflexivity. }
  split; [| split].
  - rewrite Hout. cbn [classList classAdd].
    rewrite elem_of_union, elem_of_singleton. left. reflexivity.
  - exact Htext.
  - pose proof (commandLine_copyable commandType p) as Hc.
    rewrite <- Htext in Hc.
    rewrite (copyListener_copyable _ _ Hc), Htext. reflexivity.
Qed.

Lemma supported_market : lit "market-order" ∈ supportedTypes.
Proof. unfold supportedTypes. right. left. Qed.

Lemma stale_command_after_select_witness :
  clipboardData
    (copyListener
       (step (SelectOrderType (lit "grid-order"))
          (generateCommand (lit "market-order") marketPage))
       {| clipboardData := ∅; defaultPrevented := false |})
  !! "text/plain"
  = Some (lit "python bot.py market-order --symbol BTCUSDT --side BUY --quantity 0.001").
Proof.
  destruct (stale_command_after_select (lit "market-order") (lit "grid-order")
              marketPage {| clipboardData := ∅; defaultPrevented := false |}
              supported_market marketPage_filled) as (_ & _ & Hcopy).
  rewrite Hcopy. cbn. rewrite lookup_insert_eq. reflexivity.
Defined.

(** *** X9 *)

(** X9.  After [displayLog] the log output carries the class
    [text-red-400] exactly when the pasted text was empty or whitespace
    only.  In that case the [hidden] class is not touched: on a log output
    that is hidden, as it is when the page loads, the message "No log
    content to display..." is set but stays hidden. *)
Theorem displayLog_error_style (p : page) :
  let p' := displayLog p in
  ("text-red-400" ∈ classList (logOutputDiv p') <-> blank (logInputTextarea p))
  /\ (blank (logInputTextarea p) ->
        ("hidden" ∈ classList (logOutputDiv p')
         <-> "hidden" ∈ classList (logOutputDiv p))).
Proof.
  intros p'. subst p'. unfold displayLog.
  destruct (jseq (trim (logInputTextarea p)) (lit "")) eqn:E.
  - apply displayLog_guard in E. page_simpl. split.
    + split; [intros _; exact E |]. intros _.
      rewrite elem_of_union, elem_of_singleton. left. reflexivity.
    + intros _. rewrite elem_of_union, elem_of_singleton.
      split; [intros [H | H]; [discriminate H | exact H] | intros H; right; exact H].
  - apply not_true_iff_false in E. rewrite displayLog_guard in E.
    page_simpl. split.
    + rewrite !elem_of_difference, elem_of_singleton. tauto.
    + intros H. contradiction.
Qed.

(** *** X10 *)

(** X10.  [generateCommand] and [displayLog] do not interfere: the command
    generator reads the form and writes the command display, the log
    viewer reads the textarea and writes the log output, so running them
    in either order gives the same page, for every command type. *)
Theorem generateCommand_displayLog_commute (commandType : jsstring) (p : page) :
  displayLog (generateCommand commandType p)
  = generateCommand commandType (displayLog p).
Proof.
  rewrite !generateCommand_show.
  assert (Hf : fields (displayLog p) = fields p).
  { unfold displayLog. destruct (jseq _ _); reflexivity. }
  rewrite (accepts_fields _ _ _ Hf), (commandLine_fields _ _ _ Hf).
  generalize (commandLine commandType p). intros c.
  unfold displayLog.
  replace (logInputTextarea (showCommand (accepts commandType p) c p))
    with (logInputTextarea p)
    by (destruct (accepts commandType p); reflexivity).
  destruct (accepts commandType p),
           (jseq (trim (logInputTextarea p)) (lit "")); reflexivity.
Qed.

(** *** X11 *)

(** X11.  Every successful copy sets one timer of 2000 ms that hides the
    "Copied to clipboard!" message, and no timer is ever cancelled.  After
    one click the message is shown and hidden again when the timer fires.
    After two clicks two timers are pending, and the first to fire hides
    the message although the timer of the second click is still
    pending. *)
Theorem copy_message_timers (p : page) :
  copyable (textContent (generatedCommandPre p)) ->
  timers p = [] ->
  let once := copyCommand p in
  let twice := copyCommand once in
  timers once = [(2000, HideCopyMessage)]
  /\ ("hidden" ∉ classList (copyMessageP once))
  /\ ("hidden" ∈ classList (copyMessageP (fireTimer once)))
  /\ timers (fireTimer once) = []
  /\ timers twice = [(2000, HideCopyMessage); (2000, HideCopyMessage)]
  /\ ("hidden" ∉ classList (copyMessageP twice))
  /\ ("hidden" ∈ classList (copyMessageP (fireTimer twice)))
  /\ timers (fireTimer twice) = [(2000, HideCopyMessage)].
Proof.
  intros Hc Hnone once twice. subst twice once.
  assert (Hc' : copyable (textContent (generatedCommandPre (copyCommand p)))).
  { rewrite (copyCommand_copyable _ Hc). exact Hc. }
  rewrite (copyCommand_copyable _ Hc'), (copyCommand_copyable _ Hc).
  unfold fireTimer. page_simpl. rewrite Hnone. cbn [app].
  unfold runCallback. page_simpl.
  rewrite !elem_of_union, !elem_of_difference, !elem_of_singleton.
  repeat split; try reflexivity; try tauto; left; reflexivity.
Qed.

Lemma copy_message_timers_witness :
  let p := generateCommand (lit "market-order") marketPage in
  timers (fireTimer (copyCommand (copyCommand p))) = [(2000, HideCopyMessage)]
  /\ "hidden" ∈ classList (copyMessageP (fireTimer (copyCommand (copyCommand p)))).
Proof.
  cbn zeta.
  pose proof (copy_message_timers
                (generateCommand (lit "market-order") marketPage)) as H.
  cbn zeta in H.
  destruct H as (_ & _ & _ & _ & _ & _ & Hhidden & Htimers).
  - rewrite marketPage_command. split; vm_compute; discriminate.
  - rewrite generateCommand_table by exact supported_market.
    destruct (allFilled _ _); reflexivity.
  - split; assumption.
Defined.

(** *** X12 *)

(** X12.  [showOrderForm] starts from scratch every time: whatever had been
    typed is gone, since the new form has exactly the inputs of the
    selected type (none for an unsupported selection), all of them empty;
    the command output area and the copy message are hidden; the
    generated-command text and the log viewer are left alone. *)
Theorem showOrderForm_resets (p : page) :
  let p' := showOrderForm p in
  "hidden" ∈ classList (commandOutputDiv p')
  /\ "hidden" ∈ classList (copyMessageP p')
  /\ generatedCommandPre p' = generatedCommandPre p
  /\ logOutputDiv p' = logOutputDiv p
  /\ logInputTextarea p' = logInputTextarea p
  /\ (forall id,
        fields p' !! id
        = if bool_decide (orderTypeSelect p ∈ supportedTypes
                          /\ id ∈ formInputs (orderTypeSelect p))
          then Some [] else None)
  /\ buttonOf (orderFormsDiv p')
     = if bool_decide (orderTypeSelect p ∈ supportedTypes)
       then Some (orderTypeSelect p) else None.
Proof.
  intros p'. subst p'.
  destruct (showOrderForm_display p) as (Hout & Hmsg & Hpre & Hlog & Hin).
  rewrite Hout, Hmsg. cbn [classList classAdd].
  rewrite !elem_of_union, !elem_of_singleton.
  split; [left; reflexivity |]. split; [left; reflexivity |].
  split; [exact Hpre |]. split; [exact Hlog |]. split; [exact Hin |].
  destruct (decide (orderTypeSelect p ∈ supportedTypes)) as [Hsel | Hsel].
  - rewrite (bool_decide_eq_true_2 _ Hsel). split.
    + intros id. rewrite (showOrderForm_fields _ _ Hsel).
      apply (f_equal (fun b : bool => if b then Some [] else None)).
      apply bool_decide_ext. tauto.
    + apply showOrderForm_supported_button. exact Hsel.
  - rewrite (bool_decide_eq_false_2 _ Hsel).
    destruct (showOrderForm_unsupported _ Hsel) as [Hb Hf]. split.
    + intros id. rewrite Hf, lookup_empty.
      rewrite bool_decide_eq_false_2 by tauto. reflexivity.
    + exact Hb.
Qed.

(** *** X13 *)

Lemma step_generated_text (a : action) (p : page) :
  a <> ClickGenerate ->
  generatedCommandPre (step a p) = generatedCommandPre p.
Proof.
  intros Ha. destruct a as [t | id v | | | s |]; cbn [step].
  - destruct (showOrderForm_display (withOrderType t p)) as (_ & _ & H & _).
    rewrite H. reflexivity.
  - destruct (fields p !! id); reflexivity.
  - contradiction.
  - destruct (decide (copyable (textContent (generatedCommandPre p)))) as [H | H].
    + rewrite (copyCommand_copyable _ H). reflexivity.
    + rewrite (copyCommand_not_copyable _ H). reflexivity.
  - reflexivity.
  - unfold displayLog. destruct (jseq _ _); reflexivity.
Qed.

(** X13.  On every page that the user can reach, the text of the
    generated-command element is empty (nothing generated yet), the
    message "Please fill all required fields.", or the command line of a
    supported order type whose inputs all had a value; no other handler
    writes it.  Hence the [copy] listener either leaves a copy alone or
    replaces it by a text that begins with "python bot.py ". *)
Theorem reachable_generated_text (p : page) :
  reachable p ->
  (textContent (generatedCommandPre p) = []
   \/ textContent (generatedCommandPre p) = requiredMessage
   \/ exists commandType q,
        commandType ∈ supportedTypes
        /\ Forall (filled q) (formInputs commandType)
        /\ textContent (generatedCommandPre p) = commandLine commandType q)
  /\ (forall e,
        copyListener p e = e
        \/ exists rest,
             copyListener p e
             = preventDefault
                 (setData "text/plain" (lit "python bot.py " ++ rest) e)).
Proof.
  intros Hreach.
  assert (Htext : textContent (generatedCommandPre p) = []
                  \/ textContent (generatedCommandPre p) = requiredMessage
                  \/ exists commandType q,
                       commandType ∈ supportedTypes
                       /\ Forall (filled q) (formInputs commandType)
                       /\ textContent (generatedCommandPre p)
                          = commandLine commandType q).
  { induction Hreach as [| a p Hreach IH].
    - left. unfold loadedPage.
      destruct (showOrderForm_display initialPage) as (_ & _ & H & _).
      rewrite H. reflexivity.
    - destruct a as [t | id v | | | s |];
        try (rewrite step_generated_text by discriminate; exact IH).
      cbn [step]. unfold clickGenerate, generateCommandWrapper.
      destruct (buttonOf (orderFormsDiv p)) as [t |]; [| exact IH].
      rewrite generateCommand_show.
      destruct (accepts t p) eqn:E.
      + apply accepts_true in E. destruct E as [Hin Hall].
        right. right. exists t, p. auto.
      + right. left. reflexivity. }
  split; [exact Htext |]. intros e.
  destruct Htext as [H | [H | (t & q & _ & _ & H)]].
  - left. apply copyListener_not_copyable. rewrite H. intros [Hne _].
    apply Hne. reflexivity.
  - left. apply copyListener_not_copyable. rewrite H.
    exact requiredMessage_not_copyable.
  - right. exists (t ++ concat (flagPair q <$> formInputs t)).
    pose proof (commandLine_copyable t q) as Hc. rewrite <- H in Hc.
    rewrite (copyListener_copyable _ _ Hc), H. reflexivity.
Qed.

Lemma reachable_generated_text_witness :
  copyListener
    (step ClickCopy
       (step ClickGenerate
          (step (SelectOrderType (lit "check-balance")) loadedPage)))
    (ClipboardEvent ∅ false)
  = ClipboardEvent ∅ false
  \/ exists rest,
       copyListener
         (step ClickCopy
            (step ClickGenerate
               (step (SelectOrderType (lit "check-balance")) loadedPage)))
         (ClipboardEvent ∅ false)
       = preventDefault
           (setData "text/plain" (lit "python bot.py " ++ rest)
              (ClipboardEvent ∅ false)).
Proof.
  apply reachable_generated_text.
  do 3 apply reachable_step. apply reachable_loaded.
Defined.

End Frontend.

(** * The order validation and execution engine *)

Module Engine.

Local Open Scope string_scope.
Local Open Scope list_scope.
Local Open Scope Q_scope.

(** ** Flooring to a step *)

(** Modelled from the spec: the Python flooring helper of the validator is
    not in the tree.  Section 8 calls it [floor(q, s)], section 4.1 "floor
    to the nearest valid step, never round up": the largest integer
    multiple of [s] that does not exceed [q].  Quantities and prices are
    exact rationals. *)
Definition floorTo (q s : Q) : Q := inject_Z (Qfloor (q / s)) * s.

Definition multipleOf (s x : Q) : Prop := exists k : Z, x == inject_Z k * s.

(** ** Data model (section 3) *)

(** Modelled from the spec: the per-symbol exchange constraints of the
    Rule Store; [rules.py]/[config.py] are not in the tree. *)
Record TradingRule : Type := {
  tickSize : Q;
  stepSize : Q;
  minQty : Q;
  maxQty : Q;
  minPrice : Q;
  maxPrice : Q;
  minNotional : Q
}.

Inductive Side : Type := BUY | SELL.

Inductive OrderType : Type :=
  | MARKET | LIMIT | STOP_MARKET | TAKE_PROFIT_MARKET | STOP_LIMIT.

(** Modelled from the spec: an order request as it reaches the validator.
    The side is still the string of the caller and the numeric fields may
    be missing ([None]: absent or not numeric), since checks 2, 3, 6 and 7
    of section 4.1 can fail on them. *)
Record OrderRequest : Type := {
  symbol : string;
  side : string;
  quantity : option Q;
  price : option Q;
  stopPrice : option Q;
  type : OrderType
}.

(** Modelled from the spec: the order that the validator hands to the
    Exchange Client Port, quantity and price rounded down. *)
Record ValidatedOrder : Type := {
  vSymbol : string;
  vSide : Side;
  vQuantity : Q;
  vPrice : option Q;
  vStopPrice : option Q;
  vType : OrderType
}.

Inductive ValidationError : Type :=
  | UnknownSymbol
  | InvalidSide
  | InvalidQuantity
  | QuantityOutOfRange
  | QuantityTooSmallAfterRounding
  | InvalidPrice
  | InvalidStopPriceDirection
  | BelowMinNotional.

(** Modelled from the spec: the error taxonomy of section 7 and the typed
    result of the validator, which never throws. *)
Inductive validation (A : Type) : Type :=
  | Valid (a : A)
  | Invalid (e : ValidationError).
Arguments Valid {A} a.
Arguments Invalid {A} e.

Definition vbind {A B : Type} (m : validation A) (k : A -> validation B)
  : validation B :=
  match m with
  | Valid a => k a
  | Invalid e => Invalid e
  end.

#[export] Instance validation_bind : MBind validation :=
  fun A B k m => vbind m k.

Definition require (ok : bool) (e : ValidationError) : validation unit :=
  if ok then Valid tt else Invalid e.

Definition present {A : Type} (o : option A) (e : ValidationError)
  : validation A :=
  match o with
  | Some a => Valid a
  | None => Invalid e
  end.

Definition Qlt_bool (x y : Q) : bool := negb (Qle_bool y x).

Definition parseSide (s : string) : option Side :=
  if String.eqb s "BUY" then Some BUY
  else if String.eqb s "SELL" then Some SELL
  else None.

Definition hasPrice (t : OrderType) : bool :=
  match t with
  | LIMIT | STOP_LIMIT => true
  | _ => false
  end.

Definition hasStopPrice (t : OrderType) : bool :=
  match t with
  | STOP_MARKET | TAKE_PROFIT_MARKET | STOP_LIMIT => true
  | _ => false
  end.

(** ** Execution records (section 3) *)

(** Modelled from the spec: the ExecutionRecord of section 3, the outcome of
    dispatching one child order; the Python records are not in the tree. *)
Inductive ExecStatus : Type := PLACED | REJECTED | FAILED | CANCELLED.

Record ApiError : Type := { code : Z; message : string }.

Inductive ErrorDetail : Type :=
  | ValidationFailed (e : ValidationError)
  | ApiFailed (e : ApiError).

Record ExecutionRecord : Type := {
  requestId : nat;
  exchangeOrderId : option N;
  status : ExecStatus;
  errorDetail : option ErrorDetail;
  timestamp : Q          (* seconds from the start of the plan *)
}.

Inductive StrategyStatus : Type :=
  | COMPLETED | PARTIALLY_FAILED | STRATEGY_FAILED.

Definition isPlaced (r : ExecutionRecord) : bool :=
  match status r with
  | PLACED => true
  | _ => false
  end.

(** Modelled from the spec: the terminal state of a strategy (section 4.3),
    derived from the records of its children.  COMPLETED: all children
    PLACED.  PARTIALLY_FAILED: some PLACED, some not.  FAILED: all children
    failed, or validation failed before any dispatch, in which case there
    is no child record at all. *)
Definition strategyStatus (records : list ExecutionRecord) : StrategyStatus :=
  match records with
  | [] => STRATEGY_FAILED
  | _ :: _ =>
      if forallb isPlaced records then COMPLETED
      else if existsb isPlaced records then PARTIALLY_FAILED
      else STRATEGY_FAILED
  end.

(** ** Strategy requests *)

(** Modelled from the spec: one typed call per strategy kind (section 6),
    a tagged union over the six kinds (section 9). *)
Inductive StrategyRequest : Type :=
  | Market (sym side : string) (qty : Q)
  | Limit (sym side : string) (qty limitPrice : Q)
  | Oco (sym side : string) (qty stop takeProfit : Q)
  | StopLimit (sym side : string) (qty stop limitPrice : Q)
  | Twap (sym side : string) (totalQuantity : Q) (numIntervals : nat)
         (intervalSeconds : Q)
  | Grid (sym : string) (gridMin gridMax : Q) (numBuyOrders numSellOrders : nat)
         (quantityPerOrder : Q).

Definition child (sym sd : string) (q : Q) (p sp : option Q) (t : OrderType)
  : OrderRequest :=
  {| symbol := sym; side := sd; quantity := Some q; price := p;
     stopPrice := sp; type := t |}.

(** *** TWAP slices *)

(** Modelled from the spec: "sliceQty = totalQuantity / numIntervals,
    floored to stepSize; the final slice absorbs rounding remainder
    (totalQuantity - sliceQty*(numIntervals-1))". *)
Definition twapQuantities (totalQuantity : Q) (numIntervals : nat) (step : Q)
  : list Q :=
  let sliceQty := floorTo (totalQuantity / inject_Z (Z.of_nat numIntervals)) step in
  replicate (numIntervals - 1) sliceQty
  ++ [totalQuantity - sliceQty * inject_Z (Z.of_nat (numIntervals - 1))].

(** Modelled from the spec: offsets [k * intervalSeconds] for
    [k = 0 .. numIntervals-1], measured from the start of the plan. *)
Definition twapOffsets (numIntervals : nat) (intervalSeconds : Q) : list Q :=
  (fun k => inject_Z (Z.of_nat k) * intervalSeconds) <$> seq 0 numIntervals.

(** *** Grid levels *)

(** Modelled from the spec: buy levels at
    [minPrice + i*(midpoint-minPrice)/numBuyOrders] for [i] in
    [0, numBuyOrders), sell levels at
    [midpoint + j*(maxPrice-midpoint)/numSellOrders] for [j] in
    [0, numSellOrders); the midpoint is the middle of the range. *)
Definition gridLevels (gridMin gridMax : Q) (numBuyOrders numSellOrders : nat)
  : list (Side * Q) :=
  let midpoint := (gridMin + gridMax) / 2 in
  ((fun i => (BUY, gridMin + inject_Z (Z.of_nat i) * (midpoint - gridMin)
                             / inject_Z (Z.of_nat numBuyOrders)))
     <$> seq 0 numBuyOrders)
  ++ ((fun j => (SELL, midpoint + inject_Z (Z.of_nat j) * (gridMax - midpoint)
                                  / inject_Z (Z.of_nat numSellOrders)))
        <$> seq 0 numSellOrders).

(** Modelled from the spec: "All computed levels are floored to tickSize
    before validation." *)
Definition floorLevels (tick : Q) (levels : list (Side * Q)) : list (Side * Q) :=
  (fun l => (fst l, floorTo (snd l) tick)) <$> levels.

Definition sameSide (a b : Side) : bool :=
  match a, b with
  | BUY, BUY | SELL, SELL => true
  | _, _ => false
  end.

Definition sameLevel (a b : Side * Q) : bool :=
  sameSide (fst a) (fst b) && Qeq_bool (snd a) (snd b).

Definition seenLevel (seen : list (Side * Q)) (l : Side * Q) : bool :=
  existsb (sameLevel l) seen.

(** Modelled from the spec: "Duplicate price levels after tick-flooring are
    deduplicated to avoid placing two identical orders".  The orders of one
    grid share symbol and quantity, so two of them are identical when
    they have the same side and the same price (section 5: "a unique
    symbol+price+side+quantity tuple"); of such levels the first one
    stays. *)
Fixpoint dedupLevels (seen : list (Side * Q)) (levels : list (Side * Q))
  : list (Side * Q) :=
  match levels with
  | [] => []
  | l :: rest =>
      if seenLevel seen l then dedupLevels seen rest
      else l :: dedupLevels (l :: seen) rest
  end.

Definition sideName (s : Side) : string :=
  match s with
  | BUY => "BUY"
  | SELL => "SELL"
  end.

Definition gridPrices (tick gridMin gridMax : Q) (numBuyOrders numSellOrders : nat)
  : list (Side * Q) :=
  dedupLevels [] (floorLevels tick (gridLevels gridMin gridMax numBuyOrders numSellOrders)).


(** ** Sample rules and exchanges *)

(** The filters of BTCUSDT on the futures testnet. *)
Definition btcRule : TradingRule :=
  {| tickSize := 0.1; stepSize := 0.001; minQty := 0.001; maxQty := 1000;
     minPrice := 556.8; maxPrice := 4529764; minNotional := 100 |}.

(** A rule whose smallest quantity is not a whole number of steps. *)
Definition oddRule : TradingRule :=
  {| tickSize := 0.1; stepSize := 0.001; minQty := 0.0015; maxQty := 1000;
     minPrice := 556.8; maxPrice := 4529764; minNotional := 100 |}.

Definition ruleStore : gmap string TradingRule :=
  <["BTCUSDT" := btcRule]> (<["ODDUSDT" := oddRule]> ∅).

Definition priceAt (p : Q) (_ : string) : Q := p.

Definition anySide (_ : Side) (_ : OrderType) (_ _ : Q) : bool := true.

(** An exchange that places every order and numbers them. *)
Definition placeAll (vo : ValidatedOrder) (w : N)
  : ((N * ExecStatus) + ApiError) * N :=
  (inl (w, PLACED), N.succ w).

(** An exchange on which a stop order fails and every other order is
    placed. *)
Definition failStops (vo : ValidatedOrder) (w : N)
  : ((N * ExecStatus) + ApiError) * N :=
  match vType vo with
  | STOP_MARKET =>
      (inr {| code := (-2021)%Z; message := "Order would immediately trigger." |}, w)
  | _ => (inl (w, PLACED), N.succ w)
  end.

(** What one run of a strategy leaves behind: the records of its children
    in dispatch order, the orders that went out through the Exchange
    Client Port, and the state of the exchange afterwards. *)
Record Execution (World : Type) : Type := {
  records : list ExecutionRecord;
  dispatched : list ValidatedOrder;
  world : World
}.
Arguments records {World} _.
Arguments dispatched {World} _.
Arguments world {World} _.

Section WithExchange.

(** The Rule Store snapshot of one invocation. *)
Variable rules : gmap string TradingRule.

(** The external current-price estimate (section 4.1, checks 7 and 8);
    validation makes no network call, so the estimate is an input. *)
Variable marketPrice : string -> Q.

(** Check 7 asks for the stop price to lie "on the correct side of the
    current market price relative to order intent".  The rule is spelled
    out for a stop that sells to close only, so it stays a parameter:
    [stopSideOk side type stopPrice currentPrice]. *)
Variable stopSideOk : Side -> OrderType -> Q -> Q -> bool.

(** The Exchange Client Port (section 4.2): [PlaceOrder] is the only
    capability that the strategies below use.  Its implementation is an
    external collaborator; the exchange is any state machine. *)
Variable World : Type.
Variable placeOrder :
  ValidatedOrder -> World -> ((N * ExecStatus) + ApiError) * World.

(** ** 4.1 Validator *)

(** [lo <= x <= hi], as a test. *)
Definition inRange (lo x hi : Q) : bool := Qle_bool lo x && Qle_bool x hi.

(** Modelled from the spec: check 6, for LIMIT and STOP_LIMIT: price
    present, within [minPrice, maxPrice], floored to tickSize, floored
    price positive.  Section 3 states the range for the price of the
    ValidatedOrder, which is the floored one, so the range is tested on the
    floored price as well.  [InvalidPrice] is the only price error of the
    taxonomy.  Orders of the other types carry no price. *)
Definition checkPrice (rule : TradingRule) (req : OrderRequest)
  : validation (option Q) :=
  if hasPrice (type req) then
    p ← present (price req) InvalidPrice;
    _ ← require (inRange (minPrice rule) p (maxPrice rule)) InvalidPrice;
    let p' := floorTo p (tickSize rule) in
    _ ← require (Qlt_bool 0 p') InvalidPrice;
    _ ← require (inRange (minPrice rule) p' (maxPrice rule)) InvalidPrice;
    Valid (Some p')
  else Valid None.

(** Modelled from the spec: check 7, for STOP_MARKET, TAKE_PROFIT_MARKET and
    STOP_LIMIT: stop price present, positive and on the correct side of the
    current price; rounded to the tick like a price. *)
Definition checkStopPrice (rule : TradingRule) (sd : Side) (req : OrderRequest)
  : validation (option Q) :=
  if hasStopPrice (type req) then
    sp ← present (stopPrice req) InvalidStopPriceDirection;
    _ ← require (Qlt_bool 0 sp
                 && stopSideOk sd (type req) sp (marketPrice (symbol req)))
                InvalidStopPriceDirection;
    Valid (Some (floorTo sp (tickSize rule)))
  else Valid None.

(** Modelled from the spec: the price that the notional of check 8 is taken
    at: the order's own price, or the current-price estimate for an order
    without one. *)
Definition notionalPrice (sym : string) (p : option Q) : Q :=
  match p with
  | Some p => p
  | None => marketPrice sym
  end.

(** Modelled from the spec: [validate(request, rule)] of section 4.1; the
    Python validator is not in the tree.  The eight checks run in the order
    of the section and stop at the first failure.  Section 3 makes
    [minQty <= quantity <= maxQty] part of what a ValidatedOrder is, and
    its quantity is the floored one, so after check 5 the range of check 4
    is tested on the floored quantity as well. *)
Definition validate (req : OrderRequest) : validation ValidatedOrder :=
  rule ← present (rules !! symbol req) UnknownSymbol;
  sd ← present (parseSide (side req)) InvalidSide;
  q ← present (quantity req) InvalidQuantity;
  _ ← require (Qlt_bool 0 q) InvalidQuantity;
  _ ← require (inRange (minQty rule) q (maxQty rule)) QuantityOutOfRange;
  let q' := floorTo q (stepSize rule) in
  _ ← require (negb (Qeq_bool q' 0)) QuantityTooSmallAfterRounding;
  _ ← require (inRange (minQty rule) q' (maxQty rule)) QuantityOutOfRange;
  p' ← checkPrice rule req;
  sp' ← checkStopPrice rule sd req;
  _ ← require (Qle_bool (minNotional rule)
                        (notionalPrice (symbol req) p' * q'))
              BelowMinNotional;
  Valid {| vSymbol := symbol req; vSide := sd; vQuantity := q';
           vPrice := p'; vStopPrice := sp'; vType := type req |}.

(** ** 4.3 Strategy engine *)

(** Modelled from the spec: one child is validated; on failure it is
    marked FAILED and nothing is dispatched; on success it goes to
    [PlaceOrder] and the answer is recorded.  Any non-success of the port
    is an [ApiError], recorded with the child and never retried. *)
Definition runChild (i : nat) (c : Q * OrderRequest) (w : World)
  : ExecutionRecord * option ValidatedOrder * World :=
  match validate (snd c) with
  | Invalid e =>
      ({| requestId := i; exchangeOrderId := None; status := FAILED;
          errorDetail := Some (ValidationFailed e); timestamp := fst c |},
       None, w)
  | Valid vo =>
      match placeOrder vo w with
      | (inl (oid, st), w') =>
          ({| requestId := i; exchangeOrderId := Some oid; status := st;
              errorDetail := None; timestamp := fst c |},
           Some vo, w')
      | (inr err, w') =>
          ({| requestId := i; exchangeOrderId := None; status := FAILED;
              errorDetail := Some (ApiFailed err); timestamp := fst c |},
           Some vo, w')
      end
  end.

(** Modelled from the spec: the children are attempted one after the
    other; a failed child does not stop the ones after it. *)
Fixpoint runChildren (i : nat) (children : list (Q * OrderRequest)) (w : World)
  : Execution World :=
  match children with
  | [] => {| records := []; dispatched := []; world := w |}
  | c :: rest =>
      let '(r, d, w') := runChild i c w in
      let ex := runChildren (S i) rest w' in
      {| records := r :: records ex;
         dispatched := option_list d ++ dispatched ex;
         world := world ex |}
  end.

Definition marketChild (sym sd : string) (q : Q) : OrderRequest :=
  child sym sd q None None MARKET.

Definition limitChild (sym : string) (qty : Q) (level : Side * Q) : OrderRequest :=
  child sym (sideName (fst level)) qty (Some (snd level)) None LIMIT.

(** Modelled from the spec: the children of each strategy, with their
    scheduled offsets.  A TWAP or Grid plan needs the step or tick of its
    symbol; without a rule (or with no interval at all) validation fails
    before any dispatch and there is no plan. *)
Definition plan (s : StrategyRequest) : option (list (Q * OrderRequest)) :=
  match s with
  | Market sym sd q =>
      Some [(0, marketChild sym sd q)]
  | Limit sym sd q p =>
      Some [(0, child sym sd q (Some p) None LIMIT)]
  | Oco sym sd q stop takeProfit =>
      Some [(0, child sym sd q None (Some stop) STOP_MARKET);
            (0, child sym sd q None (Some takeProfit) TAKE_PROFIT_MARKET)]
  | StopLimit sym sd q stop p =>
      Some [(0, child sym sd q (Some p) (Some stop) STOP_LIMIT)]
  | Twap sym sd total n interval =>
      match rules !! sym, n with
      | Some rule, S _ =>
          Some (zip (twapOffsets n interval)
                    (marketChild sym sd
                       <$> twapQuantities total n (stepSize rule)))
      | _, _ => None
      end
  | Grid sym gmin gmax nb ns qty =>
      match rules !! sym with
      | Some rule =>
          Some ((fun level => (0, limitChild sym qty level))
                  <$> gridPrices (tickSize rule) gmin gmax nb ns)
      | None => None
      end
  end.

(** The requests that pass validation, as validated. *)
Definition accepted (requests : list OrderRequest) : list ValidatedOrder :=
  flat_map (fun req => match validate req with
                       | Valid vo => [vo]
                       | Invalid _ => []
                       end) requests.

Definition passes (req : OrderRequest) : Prop :=
  exists vo, validate req = Valid vo.

(** Modelled from the spec: PENDING, VALIDATING, EXECUTING and the terminal
    state of section 4.3, for one strategy request. *)
Definition runStrategy (s : StrategyRequest) (w : World)
  : Execution World * StrategyStatus :=
  match plan s with
  | None => ({| records := []; dispatched := []; world := w |}, STRATEGY_FAILED)
  | Some children =>
      let ex := runChildren 0 children w in
      (ex, strategyStatus (records ex))
  end.

(** ** The invariant of a validated order *)

(** The invariant of section 3.  An order of a type that carries a price
    (LIMIT, STOP_LIMIT) has one, and the clauses on the price are about
    it; an order of another type has none, and its notional is taken at
    the current-price estimate, as in check 8. *)
Definition statedInvariant (rule : TradingRule) (vo : ValidatedOrder) : Prop :=
  multipleOf (stepSize rule) (vQuantity vo)
  /\ match vPrice vo with
     | Some p =>
         hasPrice (vType vo) = true
         /\ multipleOf (tickSize rule) p
         /\ minPrice rule <= p <= maxPrice rule
     | None => hasPrice (vType vo) = false
     end
  /\ minQty rule <= vQuantity vo <= maxQty rule
  /\ minNotional rule <= notionalPrice (vSymbol vo) (vPrice vo) * vQuantity vo.

(** The order satisfies the invariant for the rule of its symbol. *)
Definition meetsRule (vo : ValidatedOrder) : Prop :=
  exists rule,
    rules !! vSymbol vo = Some rule /\ statedInvariant rule vo.

(** ** Answers of the port *)

Definition isApiError (r : (N * ExecStatus) + ApiError) : Prop :=
  exists err, r = inr err.

Definition isPlacedAnswer (r : (N * ExecStatus) + ApiError) : Prop :=
  exists oid, r = inl (oid, PLACED).

Definition placed (r : ExecutionRecord) : Prop := status r = PLACED.

(** ** Properties of the flooring function *)

#[export] Instance floorTo_Proper : Proper (Qeq ==> Qeq ==> Qeq) floorTo.
Proof.
  intros q1 q2 Hq s1 s2 Hs. unfold floorTo.
  assert (E : q1 / s1 == q2 / s2) by (rewrite Hq, Hs; reflexivity).
  rewrite (Qfloor_comp _ _ E), Hs. reflexivity.
Qed.



Lemma floorTo_le (q s : Q) : 0 < s -> floorTo q s <= q.
Proof.
  intros Hs. unfold floorTo.
  pose proof (Qfloor_le (q / s)) as Hfl.
  assert (E : q / s * s == q) by (field; lra).
  rewrite <- E at 2. apply Qmult_le_compat_r; lra.
Qed.


Lemma floorTo_multiple (q s : Q) : multipleOf s (floorTo q s).
Proof. exists (Qfloor (q / s)). reflexivity. Qed.





Lemma floorTo_mono (q1 q2 s : Q) :
  0 < s -> q1 <= q2 -> floorTo q1 s <= floorTo q2 s.
Proof.
  intros Hs Hq. unfold floorTo.
  apply Qmult_le_compat_r; [| lra].
  rewrite <- Zle_Qle. apply Qfloor_resp_le.
  apply Qmult_le_compat_r; [exact Hq |].
  apply Qlt_le_weak, Qinv_lt_0_compat. exact Hs.
Qed.


(** *** C7 *)

(** C7.  For every quantity [q] and every step size [s > 0], the flooring
    function of the engine gives a value that is at most [q] and that is
    an integer multiple of [s]. *)
Theorem floorTo_spec (q s : Q) :
  0 < s -> floorTo q s <= q /\ exists k : Z, floorTo q s == inject_Z k * s.
Proof.
  intros Hs. split.
  - apply floorTo_le. exact Hs.
  - apply floorTo_multiple.
Qed.

(** ** Properties of the validator *)

Lemma Qlt_bool_iff (x y : Q) : Qlt_bool x y = true <-> x < y.
Proof.
  unfold Qlt_bool. rewrite negb_true_iff. split.
  - intros H. apply Qnot_le_lt. intros Hle.
    apply Qle_bool_iff in Hle. congruence.
  - intros H. apply not_true_iff_false. intros Hle.
    apply Qle_bool_iff in Hle. lra.
Qed.

Lemma inRange_iff (lo x hi : Q) : inRange lo x hi = true <-> lo <= x <= hi.
Proof. unfold inRange. rewrite andb_true_iff, !Qle_bool_iff. reflexivity. Qed.

Lemma checkPrice_Valid (rule : TradingRule) (req : OrderRequest) (o : option Q) :
  checkPrice rule req = Valid o ->
  match o with
  | None => hasPrice (type req) = false
  | Some p' =>
      hasPrice (type req) = true /\
      exists p, price req = Some p /\
                minPrice rule <= p <= maxPrice rule /\
                p' = floorTo p (tickSize rule) /\ 0 < p' /\
                minPrice rule <= p' <= maxPrice rule
  end.
Proof.
  unfold checkPrice, mbind, validation_bind, vbind, present, require.
  destruct (hasPrice (type req)); [| intros [= <-]; reflexivity].
  destruct (price req) as [p |]; [| discriminate].
  destruct (inRange (minPrice rule) p (maxPrice rule)) eqn:Er; [| discriminate].
  destruct (Qlt_bool 0 (floorTo p (tickSize rule))) eqn:Ep; [| discriminate].
  destruct (inRange (minPrice rule) (floorTo p (tickSize rule)) (maxPrice rule))
    eqn:Er'; [| discriminate].
  intros [= <-]. split; [reflexivity |]. exists p.
  apply inRange_iff in Er, Er'. apply Qlt_bool_iff in Ep. auto.
Qed.

(** What a successful validation went through. *)
Lemma validate_Valid (req : OrderRequest) (vo : ValidatedOrder) :
  validate req = Valid vo ->
  exists rule sd q,
    rules !! symbol req = Some rule /\
    parseSide (side req) = Some sd /\
    quantity req = Some q /\
    0 < q /\
    minQty rule <= q <= maxQty rule /\
    ~ floorTo q (stepSize rule) == 0 /\
    minQty rule <= floorTo q (stepSize rule) <= maxQty rule /\
    checkPrice rule req = Valid (vPrice vo) /\
    minNotional rule
      <= notionalPrice (symbol req) (vPrice vo) * floorTo q (stepSize rule) /\
    vSymbol vo = symbol req /\ vSide vo = sd /\
    vQuantity vo = floorTo q (stepSize rule) /\ vType vo = type req.
Proof.
  unfold validate, mbind, validation_bind, vbind, present, require.
  destruct (rules !! symbol req) as [rule |]; [| discriminate].
  destruct (parseSide (side req)) as [sd |]; [| discriminate].
  destruct (quantity req) as [q |]; [| discriminate].
  destruct (Qlt_bool 0 q) eqn:Epos; [| discriminate].
  destruct (inRange (minQty rule) q (maxQty rule)) eqn:Er; [| discriminate].
  destruct (Qeq_bool (floorTo q (stepSize rule)) 0) eqn:Ez; [discriminate |].
  cbn [negb].
  destruct (inRange (minQty rule) (floorTo q (stepSize rule)) (maxQty rule))
    eqn:Er'; [| discriminate].
  destruct (checkPrice rule req) as [p' |] eqn:Ecp; [| discriminate].
  destruct (checkStopPrice rule sd req) as [sp' |]; [| discriminate].
  destruct (Qle_bool (minNotional rule)
              (notionalPrice (symbol req) p' * floorTo q (stepSize rule)))
    eqn:En; [| discriminate].
  intros [= <-]. cbn.
  exists rule, sd, q.
  apply Qlt_bool_iff in Epos. apply inRange_iff in Er, Er'.
  apply Qeq_bool_neq in Ez. apply Qle_bool_iff in En.
  destruct Er as [Hlo Hhi], Er' as [Hlo' Hhi']. repeat split; auto.
Qed.

(** A request that passes checks 1 to 4 and whose quantity floors to zero
    stops at check 5. *)
Lemma validate_too_small (req : OrderRequest) (rule : TradingRule) (sd : Side)
    (q : Q) :
  rules !! symbol req = Some rule ->
  parseSide (side req) = Some sd ->
  quantity req = Some q ->
  0 < q ->
  minQty rule <= q <= maxQty rule ->
  floorTo q (stepSize rule) == 0 ->
  validate req = Invalid QuantityTooSmallAfterRounding.
Proof.
  intros Hrule Hside Hq Hpos Hrange Hzero.
  unfold validate, mbind, validation_bind, vbind, present, require.
  rewrite Hrule, Hside, Hq.
  rewrite (proj2 (Qlt_bool_iff 0 q) Hpos).
  rewrite (proj2 (inRange_iff _ _ _) Hrange).
  rewrite (Qeq_eq_bool _ _ Hzero). reflexivity.
Qed.

(** A request whose quantity lies outside [minQty, maxQty] stops at
    check 4, before any flooring. *)
Lemma validate_out_of_range (req : OrderRequest) (rule : TradingRule) (sd : Side)
    (q : Q) :
  rules !! symbol req = Some rule ->
  parseSide (side req) = Some sd ->
  quantity req = Some q ->
  0 < q ->
  ~ (minQty rule <= q <= maxQty rule) ->
  validate req = Invalid QuantityOutOfRange.
Proof.
  intros Hrule Hside Hq Hpos Hrange.
  unfold validate, mbind, validation_bind, vbind, present, require.
  rewrite Hrule, Hside, Hq.
  rewrite (proj2 (Qlt_bool_iff 0 q) Hpos).
  rewrite <- inRange_iff in Hrange. apply not_true_is_false in Hrange.
  rewrite Hrange. reflexivity.
Qed.


(** ** Properties of the strategy engine *)

Lemma runChild_dispatched (i : nat) (c : Q * OrderRequest) (w : World) :
  option_list (snd (fst (runChild i c w))) = accepted [snd c].
Proof.
  unfold runChild, accepted. cbn [flat_map].
  destruct (validate (snd c)) as [vo | e]; [| reflexivity].
  destruct (placeOrder vo w) as [[[oid st] | err] w']; reflexivity.
Qed.

(** What goes out through the port is exactly what the validator let
    through, in the order of the plan, whatever the exchange answers. *)
Lemma runChildren_dispatched (children : list (Q * OrderRequest)) (i : nat)
    (w : World) :
  dispatched (runChildren i children w) = accepted (snd <$> children).
Proof.
  revert i w. induction children as [| c rest IH]; intros i w; [reflexivity |].
  cbn [runChildren].
  pose proof (runChild_dispatched i c w) as Hc.
  destruct (runChild i c w) as [[r d] w']. cbn [dispatched].
  cbn [fst snd] in Hc. rewrite Hc, IH. unfold accepted.
  cbn [flat_map fmap list_fmap]. rewrite app_nil_r. reflexivity.
Qed.

Lemma runChild_requestId (i : nat) (c : Q * OrderRequest) (w : World) :
  requestId (fst (fst (runChild i c w))) = i.
Proof.
  unfold runChild.
  destruct (validate (snd c)) as [vo | e]; [| reflexivity].
  destruct (placeOrder vo w) as [[[oid st] | err] w']; reflexivity.
Qed.

(** One record per child, numbered in the order of the plan. *)
Lemma runChildren_requestIds (children : list (Q * OrderRequest)) (i : nat)
    (w : World) :
  requestId <$> records (runChildren i children w) = seq i (length children).
Proof.
  revert i w. induction children as [| c rest IH]; intros i w; [reflexivity |].
  cbn [runChildren].
  pose proof (runChild_requestId i c w) as Hc.
  destruct (runChild i c w) as [[r d] w']. cbn [records fst] in *.
  cbn. rewrite Hc. f_equal. apply IH.
Qed.

Lemma accepted_In (requests : list OrderRequest) (vo : ValidatedOrder) :
  In vo (accepted requests) ->
  exists req, In req requests /\ validate req = Valid vo.
Proof.
  unfold accepted. rewrite in_flat_map. intros [req [Hreq Hvo]].
  exists req. split; [exact Hreq |].
  destruct (validate req) as [vo' | e]; [| contradiction].
  destruct Hvo as [-> | []]. reflexivity.
Qed.

Lemma accepted_cons (req : OrderRequest) (requests : list OrderRequest) :
  accepted (req :: requests)
  = match validate req with
    | Valid vo => vo :: accepted requests
    | Invalid _ => accepted requests
    end.
Proof.
  unfold accepted. cbn [flat_map]. destruct (validate req); reflexivity.
Qed.

Lemma accepted_length (requests : list OrderRequest) :
  (length (accepted requests) <= length requests)%nat.
Proof.
  induction requests as [| req rest IH]; [reflexivity |].
  rewrite accepted_cons. destruct (validate req); cbn [length]; lia.
Qed.

(** Every request of the plan is dispatched exactly when every request
    passes validation. *)
Lemma accepted_all (requests : list OrderRequest) :
  length (accepted requests) = length requests <-> Forall passes requests.
Proof.
  induction requests as [| req rest IH].
  - split; [constructor | reflexivity].
  - rewrite accepted_cons. pose proof (accepted_length rest) as Hle.
    destruct (validate req) as [vo | e] eqn:E; cbn [length].
    + split.
      * intros H. constructor; [exists vo; exact E | apply IH; lia].
      * intros H. inversion H; subst. f_equal. apply IH. assumption.
    + split; [lia |].
      intros H. inversion H as [| ? ? [vo Hvo] _]; subst. congruence.
Qed.

(** *** The invariant *)

Lemma validate_meetsRule (req : OrderRequest) (vo : ValidatedOrder) :
  validate req = Valid vo -> meetsRule vo.
Proof.
  intros Hvo. apply validate_Valid in Hvo.
  destruct Hvo as (rule & sd & q & Hrule & _ & _ & _ & _ & _ & Hrange & Hcp
                   & Hnot & Hsym & _ & Hvq & Htype).
  exists rule. unfold statedInvariant. rewrite Hsym, Hvq, Htype.
  split; [exact Hrule |].
  split; [apply floorTo_multiple |].
  split; [| split; [exact Hrange | exact Hnot]].
  apply checkPrice_Valid in Hcp. destruct (vPrice vo) as [p' |]; [| exact Hcp].
  destruct Hcp as (Hhas & p & _ & _ & -> & _ & Hin).
  split; [exact Hhas |]. split; [apply floorTo_multiple | exact Hin].
Qed.

(** *** C4 *)

(** C4.  Every ValidatedOrder produced by the validator, and therefore
    every order dispatched to the Exchange Client Port by any strategy,
    satisfies the invariant for the rule of its symbol: its quantity is an
    integer multiple of stepSize, its price is an integer multiple of
    tickSize, minQty <= quantity <= maxQty, minPrice <= price <= maxPrice
    and price*quantity >= minNotional.  The clauses on the price are about
    the price of a LIMIT or STOP_LIMIT order, which always has one; an
    order of another type has no price and its notional is taken at the
    current-price estimate. *)
Theorem validated_order_invariant :
  (forall req vo, validate req = Valid vo -> meetsRule vo)
  /\ (forall children i w,
        Forall meetsRule (dispatched (runChildren i children w)))
  /\ (forall s w, Forall meetsRule (dispatched (fst (runStrategy s w)))).
Proof.
  assert (Hchildren : forall children i w,
            Forall meetsRule (dispatched (runChildren i children w))).
  { intros children i w. rewrite runChildren_dispatched.
    apply Forall_forall. intros vo Hvo. apply list_elem_of_In in Hvo.
    apply accepted_In in Hvo. destruct Hvo as [req [_ Hreq]].
    eapply validate_meetsRule; eassumption. }
  split; [| split].
  - intros req vo Hvo. eapply validate_meetsRule; eassumption.
  - exact Hchildren.
  - intros s w. unfold runStrategy.
    destruct (plan s) as [children |]; cbn [fst dispatched].
    + apply Hchildren.
    + constructor.
Qed.

(** *** Terminal states *)

Lemma isPlaced_true (r : ExecutionRecord) : isPlaced r = true <-> placed r.
Proof.
  unfold isPlaced, placed. destruct (status r); split; congruence.
Qed.

Lemma forallb_isPlaced (rs : list ExecutionRecord) :
  forallb isPlaced rs = true <-> Forall placed rs.
Proof.
  induction rs as [| r rs IH]; cbn.
  - split; [constructor | reflexivity].
  - rewrite andb_true_iff, isPlaced_true, IH. split.
    + intros [H1 H2]. constructor; assumption.
    + intros H. inversion H; subst. split; assumption.
Qed.

Lemma existsb_isPlaced_false (rs : list ExecutionRecord) :
  existsb isPlaced rs = false <-> Forall (fun r => ~ placed r) rs.
Proof.
  induction rs as [| r rs IH]; cbn.
  - split; [constructor | reflexivity].
  - rewrite orb_false_iff, IH. split.
    + intros [H1 H2]. constructor; [| assumption].
      rewrite <- isPlaced_true. congruence.
    + intros H. inversion H as [| ? ? Hr Hrs]; subst.
      rewrite <- isPlaced_true in Hr.
      split; [apply not_true_is_false; exact Hr | exact Hrs].
Qed.

Lemma strategyStatus_completed (rs : list ExecutionRecord) :
  strategyStatus rs = COMPLETED <-> rs <> [] /\ Forall placed rs.
Proof.
  unfold strategyStatus. destruct rs as [| r rs'].
  - split; [discriminate | intros [H _]; contradiction].
  - rewrite <- forallb_isPlaced.
    destruct (forallb isPlaced (r :: rs')).
    + split; [intros _; split; [discriminate | reflexivity] | reflexivity].
    + destruct (existsb isPlaced (r :: rs'));
        (split; [discriminate | intros [_ H]; discriminate]).
Qed.

Lemma strategyStatus_failed (rs : list ExecutionRecord) :
  strategyStatus rs = STRATEGY_FAILED <-> Forall (fun r => ~ placed r) rs.
Proof.
  unfold strategyStatus. destruct rs as [| r rs'].
  - split; [constructor | reflexivity].
  - rewrite <- existsb_isPlaced_false.
    destruct (forallb isPlaced (r :: rs')) eqn:Ef.
    + split; [discriminate |]. intros He. cbn in Ef, He.
      apply andb_true_iff in Ef. apply orb_false_iff in He.
      destruct Ef, He. congruence.
    + destruct (existsb isPlaced (r :: rs'));
        split; try discriminate; reflexivity.
Qed.

Lemma existsb_isPlaced (rs : list ExecutionRecord) :
  existsb isPlaced rs = true <-> Exists placed rs.
Proof.
  induction rs as [| r rs IH]; cbn.
  - split; [discriminate | intros H; inversion H].
  - rewrite orb_true_iff, isPlaced_true, IH. split.
    + intros [H | H]; [left | right]; exact H.
    + intros H. inversion H; subst; [left | right]; assumption.
Qed.

Lemma forallb_isPlaced_false (rs : list ExecutionRecord) :
  forallb isPlaced rs = false <-> Exists (fun r => ~ placed r) rs.
Proof.
  induction rs as [| r rs IH]; cbn.
  - split; [discriminate | intros H; inversion H].
  - rewrite andb_false_iff, IH. split.
    + intros [H | H]; [left | right; exact H].
      rewrite <- isPlaced_true. congruence.
    + intros H. inversion H as [? ? Hr | ? ? Hrs]; subst; [left | right; exact Hrs].
      rewrite <- isPlaced_true in Hr. apply not_true_is_false. exact Hr.
Qed.

Lemma strategyStatus_partial (rs : list ExecutionRecord) :
  strategyStatus rs = PARTIALLY_FAILED
  <-> Exists placed rs /\ Exists (fun r => ~ placed r) rs.
Proof.
  rewrite <- existsb_isPlaced, <- forallb_isPlaced_false.
  unfold strategyStatus. destruct rs as [| r rs'].
  - cbn. split; [discriminate | intros [H _]; discriminate].
  - destruct (forallb isPlaced (r :: rs')) eqn:Ef.
    + split; [discriminate | intros [_ H]; discriminate].
    + destruct (existsb isPlaced (r :: rs')) eqn:Ee.
      * split; [intros _; split; reflexivity | reflexivity].
      * split; [discriminate | intros [H _]; discriminate].
Qed.

Lemma runChildren_none_accepted (children : list (Q * OrderRequest)) (i : nat)
    (w : World) :
  accepted (snd <$> children) = [] ->
  Forall (fun r => ~ placed r) (records (runChildren i children w)).
Proof.
  revert i w. induction children as [| c rest IH]; intros i w Hnone.
  - constructor.
  - cbn [fmap list_fmap] in Hnone. rewrite accepted_cons in Hnone.
    cbn [runChildren]. unfold runChild.
    destruct (validate (snd c)) as [vo | e]; [discriminate |].
    cbn [records]. constructor.
    + unfold placed. cbn. discriminate.
    + apply IH. exact Hnone.
Qed.

(** *** C6 *)

(** C6.  For every OCO execution in which the dispatch of one leg returns
    an ApiError and the other leg is PLACED, the terminal status of the
    strategy is PARTIALLY_FAILED and there are exactly two execution
    records, one per leg.  More generally a strategy ends COMPLETED iff it
    has children and all of them are PLACED, FAILED iff no child is PLACED
    or nothing was dispatched (all children failed, or validation failed
    before any dispatch), and PARTIALLY_FAILED otherwise, that is iff some
    child is PLACED and some is not. *)
Theorem strategy_terminal_status :
  (forall sym sd q stop takeProfit w v1 v2 r1 w1 r2 w2,
     validate (child sym sd q None (Some stop) STOP_MARKET) = Valid v1 ->
     validate (child sym sd q None (Some takeProfit) TAKE_PROFIT_MARKET)
       = Valid v2 ->
     placeOrder v1 w = (r1, w1) ->
     placeOrder v2 w1 = (r2, w2) ->
     (isApiError r1 /\ isPlacedAnswer r2) \/ (isPlacedAnswer r1 /\ isApiError r2) ->
     let run := runStrategy (Oco sym sd q stop takeProfit) w in
     snd run = PARTIALLY_FAILED
     /\ requestId <$> records (fst run) = [0; 1]%nat
     /\ length (records (fst run)) = 2%nat
     /\ dispatched (fst run) = [v1; v2])
  /\ (forall s w,
        let rs := records (fst (runStrategy s w)) in
        let st := snd (runStrategy s w) in
        (st = COMPLETED <-> rs <> [] /\ Forall placed rs)
        /\ (st = STRATEGY_FAILED
            <-> Forall (fun r => ~ placed r) rs
                \/ dispatched (fst (runStrategy s w)) = [])
        /\ (st = PARTIALLY_FAILED
            <-> Exists placed rs /\ Exists (fun r => ~ placed r) rs)
        /\ (st = PARTIALLY_FAILED <-> st <> COMPLETED /\ st <> STRATEGY_FAILED)).
Proof.
  split.
  - intros sym sd q stop takeProfit w v1 v2 r1 w1 r2 w2 Hv1 Hv2 Hp1 Hp2 Hcase.
    unfold runStrategy. cbn [plan runChildren]. unfold runChild. cbn [snd fst].
    destruct Hcase as [[[err ->] [oid ->]] | [[oid ->] [err ->]]];
      rewrite Hv1, Hp1; cbn iota beta; rewrite Hv2, Hp2;
      cbn; repeat split; reflexivity.
  - intros s w rs st. subst rs st. unfold runStrategy.
    destruct (plan s) as [children |] eqn:Eplan; cbn [fst snd records dispatched].
    + split; [apply strategyStatus_completed |].
      split.
      { rewrite strategyStatus_failed, runChildren_dispatched. split.
        - intros H. left. exact H.
        - intros [H | Hnone]; [exact H |].
          apply runChildren_none_accepted. exact Hnone. }
      split; [apply strategyStatus_partial |].
      destruct (strategyStatus (records (runChildren 0 children w)));
        split; intros H; try discriminate H; try reflexivity;
        try (split; discriminate); destruct H; congruence.
    + split; [split; [discriminate | intros [H _]; contradiction] |].
      split; [split; [intros _; right; reflexivity | reflexivity] |].
      split; [split; [discriminate | intros [H _]; inversion H] |].
      split; [discriminate | intros [_ H]; contradiction].
Qed.

(** ** TWAP *)

















(** *** C3 *)


End WithExchange.

(** ** Worked scenarios *)

Ltac evaluate :=
  vm_compute;
  first [ reflexivity | discriminate
        | let H := fresh in intros H; discriminate H
        | let H := fresh in intros H; apply H; reflexivity ].

(** C7 on 0.0018 with step 0.001. *)
Lemma floorTo_spec_witness :
  floorTo 0.0018 0.001 <= 0.0018
  /\ exists k : Z, floorTo 0.0018 0.001 == inject_Z k * 0.001.
Proof. apply floorTo_spec. reflexivity. Defined.


(** A limit order on BTCUSDT: the validated order meets the rule, at the
    price and the quantity rounded down. *)
Lemma validated_order_invariant_witness :
  exists vo,
    validate ruleStore (priceAt 117000) anySide
      (child "BTCUSDT" "SELL" 0.0025 (Some 120000.07) None LIMIT) = Valid vo
    /\ vQuantity vo == 0.002
    /\ vPrice vo = Some (floorTo 120000.07 0.1)
    /\ statedInvariant (priceAt 117000) btcRule vo.
Proof.
  destruct (validated_order_invariant ruleStore (priceAt 117000) anySide
              N placeAll) as [Hvalid _].
  eexists. split; [reflexivity |].
  split; [reflexivity |]. split; [reflexivity |].
  match goal with
  | |- statedInvariant _ _ ?vo =>
      destruct (Hvalid (child "BTCUSDT" "SELL" 0.0025 (Some 120000.07) None LIMIT)
                       vo eq_refl) as (rule & Hrule & Hstated)
  end.
  injection Hrule as <-. exact Hstated.
Defined.

(** On a rule whose smallest quantity is not a whole number of steps, a
    quantity that passes check 4 and is rounded to below the smallest
    quantity is not let through. *)
Lemma validate_rounded_below_minQty :
  validate ruleStore (priceAt 117000) anySide (marketChild "ODDUSDT" "BUY" 0.0018)
  = Invalid QuantityOutOfRange.
Proof. reflexivity. Qed.

(** The OCO scenario of section 8: the stop leg fails at the exchange, the
    take-profit leg is placed. *)
Lemma strategy_terminal_status_witness :
  let run := runStrategy ruleStore (priceAt 117000) anySide N failStops
               (Oco "BTCUSDT" "SELL" 0.001 116000 118000) 0%N in
  snd run = PARTIALLY_FAILED
  /\ length (records (fst run)) = 2%nat
  /\ status <$> records (fst run) = [FAILED; PLACED].
Proof.
  cbn zeta.
  destruct (strategy_terminal_status ruleStore (priceAt 117000) anySide
              N failStops) as [Hoco _].
  edestruct (Hoco "BTCUSDT" "SELL" 0.001 116000 118000 0%N)
    as (Hstatus & _ & Hlen & _).
  - reflexivity.
  - reflexivity.
  - reflexivity.
  - reflexivity.
  - left. split; eexists; reflexivity.
  - split; [exact Hstatus |]. split; [exact Hlen | reflexivity].
Defined.

End Engine.
